(** * VMware-Inventory: the inventory aggregation engine of [main.go]

    A shallow embedding of the three passes of [main] (group-name
    resolution, anonymised labels, per-host vSAN disk accounting) and of the
    CSV row builder, followed by the properties of the specification.

    The services of the vCenter SDK ([RetrieveOne], [QueryDisksForVsan]) are
    section variables: an answer may differ from call to call, so an answer
    is indexed by the position of the host being processed when the call is
    made (each loop makes at most one call of each kind per host). *)

From Stdlib Require Import ZArith QArith Qabs Qpower Lia.
From Stdlib Require Import Ascii.
From Corelib Require SpecFloat.
From stdpp Require Import base option list gmap strings pretty.

Local Open Scope string_scope.
Local Open Scope Z_scope.

(** ** Machine integers

    Go's fixed-width signed integers, as [Z] with the two's-complement
    wrap-around written out. *)
Module Int.

Definition wrap (w : Z) (z : Z) : Z :=
  (z + 2 ^ (w - 1)) mod 2 ^ w - 2 ^ (w - 1).

Definition in_range (w : Z) (z : Z) : Prop :=
  - 2 ^ (w - 1) <= z < 2 ^ (w - 1).

Definition int16 : Z -> Z := wrap 16.
Definition int64 : Z -> Z := wrap 64.

Definition add64 (a b : Z) : Z := int64 (a + b).
Definition mul64 (a b : Z) : Z := int64 (a * b).

(** [a / b] on [int16]: truncated division; a zero divisor is the
    run-time panic "integer divide by zero", here [None]. *)
Definition quo16 (a b : Z) : option Z :=
  if b =? 0 then None else Some (int16 (Z.quot a b)).

End Int.

(** [strconv.Itoa]: decimal digits, a leading minus sign for negatives. *)
Definition Itoa (z : Z) : string := pretty z.

(** ** [float64]

    The only floating-point operations of the program are the conversion
    [float64(capacityBytes)] of an [int64], one division by the constant
    [1024*1024*1024*1024] and the verb [%.1f].  A finite binary64 number is
    kept as the pair [fnum * 2^fexp]. *)
Module Float64.

Record t : Type := mk { fnum : Z; fexp : Z }.

(** The real number a float denotes. *)
Definition toQ (x : t) : Q := inject_Z (fnum x) * Qpower 2 (fexp x).

(** Nearest integer to [n / d], ties to the even one ([0 <= n], [0 < d]). *)
Definition round_half_even (n d : Z) : Z :=
  let q := n / d in
  let r := n mod d in
  if 2 * r <? d then q
  else if d <? 2 * r then q + 1
  else if Z.even q then q else q + 1.

(** [float64(z)] for an [int64] [z]: exact up to 53 significant bits,
    round-to-nearest-even above. *)
Definition of_int64 (z : Z) : t :=
  let a := Z.abs z in
  if a <? 2 ^ 53 then mk z 0
  else
    let e := Z.log2 a - 52 in
    mk (Z.sgn z * round_half_even a (2 ^ e)) e.

(** [x / 2^k]: a division by a power of two only lowers the exponent; it
    is exact as long as the result stays a normal number, which holds for
    every quotient the program forms (exponents between -40 and 23). *)
Definition div_pow2 (x : t) (k : Z) : t := mk (fnum x) (fexp x - k).

(** The tenths digit string of [fmt.Sprintf("%.1f", x)]: the exact value
    rounded to one decimal, ties to even, as [strconv.FormatFloat] does;
    the sign is printed whenever the float is negative. *)
Definition tenths (x : t) : Z :=
  let n := Z.abs (fnum x) in
  if 0 <=? fexp x then 10 * n * 2 ^ fexp x
  else round_half_even (10 * n) (2 ^ (- fexp x)).

Definition render_tenths (neg : bool) (t : Z) : string :=
  (if neg then "-" else "") +:+ Itoa (t / 10) +:+ "." +:+ Itoa (t mod 10).

Definition Sprintf_1f (x : t) : string :=
  render_tenths (fnum x <? 0) (tenths x).

(** Value of a [spec_float] of the standard library's IEEE 754 model, used
    to cross-check the definitions above on concrete inputs. *)
Definition SF_toQ (x : SpecFloat.spec_float) : option Q :=
  match x with
  | SpecFloat.S754_zero _ => Some 0%Q
  | SpecFloat.S754_finite s m e =>
      Some (inject_Z (if s then Z.neg m else Z.pos m) * Qpower 2 e)%Q
  | _ => None
  end.

Definition SF_of_Z (z : Z) : SpecFloat.spec_float :=
  SpecFloat.binary_normalize 53 1024 z 0 false.

Definition agrees_with_ieee (z : Z) (k : Z) : bool :=
  match SF_toQ (SpecFloat.SFdiv 53 1024 (SF_of_Z z) (SF_of_Z (2 ^ k))) with
  | Some q => Qeq_bool q (toQ (div_pow2 (of_int64 z) k))
  | None => false
  end.

End Float64.

(** ** The vSphere objects the program reads

    Only the fields [main] touches; a Go pointer that may be [nil] is an
    [option]. *)
Module Vim.

Record ManagedObjectReference : Type :=
  { moType : string; moValue : string }.

(** [BlockSize] is an [int32], [Block] an [int64]. *)
Record HostDiskDimensionsLba : Type := { BlockSize : Z; Block : Z }.

Record VsanHostVsanDiskInfo : Type :=
  { VsanUuid : string; FormatVersion : Z }.

Record HostScsiDisk : Type :=
  { Capacity : HostDiskDimensionsLba;
    VsanDiskInfo : option VsanHostVsanDiskInfo }.

Record VsanHostDiskMapping : Type :=
  { Ssd : HostScsiDisk; NonSsd : list HostScsiDisk }.

Record VsanHostDiskResult : Type := { Disk : HostScsiDisk; State : string }.

Record VsanHostConfigInfoStorageInfo : Type :=
  { DiskMapping : list VsanHostDiskMapping }.

Record VsanHostConfigInfo : Type :=
  { VsanEsaEnabled : option bool;
    StorageInfo : option VsanHostConfigInfoStorageInfo }.

Record HostVsanSystem : Type := { Config : VsanHostConfigInfo }.

Record HostCpuPackage : Type := { Description : string }.

(** Both counters are [int16]. *)
Record HostCpuInfo : Type := { NumCpuPackages : Z; NumCpuCores : Z }.

(** [MemorySize] is an [int64]. *)
Record HostHardwareInfo : Type :=
  { CpuPkg : list HostCpuPackage; CpuInfo : HostCpuInfo; MemorySize : Z }.

Record HostHardwareSummary : Type := { Model : string }.

Record AboutInfo : Type := { Version : string }.

Record HostConfigSummary : Type :=
  { Name : string; Product : option AboutInfo }.

Record HostListSummary : Type :=
  { SummaryHardware : option HostHardwareSummary;
    SummaryConfig : HostConfigSummary }.

Record HostConfigManager : Type :=
  { VsanSystem : option ManagedObjectReference }.

Record HostSystem : Type :=
  { Summary : HostListSummary;
    Hardware : option HostHardwareInfo;
    ConfigManager : HostConfigManager;
    Parent : option ManagedObjectReference }.

(** [h.Summary.Config.Name] *)
Definition hostName (h : HostSystem) : string := Name (SummaryConfig (Summary h)).

End Vim.
Import Vim.

(** [for i, x := range l { body }] over a state. *)
Fixpoint forRange {A St : Type} (body : nat -> A -> St -> St)
    (i : nat) (l : list A) (st : St) : St :=
  match l with
  | [] => st
  | x :: tl => forRange body (S i) tl (body i x st)
  end.

(** [m[k]] on a Go map: the zero value when the key is absent. *)
Definition mapIndex {V : Type} (zero : V) (m : gmap string V) (k : string) : V :=
  default zero (m !! k).

(** [type vsanHostInfo struct] *)
Record vsanHostInfo : Type :=
  { capacityTiB : Float64.t;
    totalDisks : Z;
    cacheDisks : Z;
    clusterType : string }.

Definition zeroInfo : vsanHostInfo :=
  {| capacityTiB := Float64.mk 0 0; totalDisks := 0; cacheDisks := 0;
     clusterType := "" |}.

(** State of the first pass: the memo [parentNames] and, for the claims
    about the collaborator, every [RetrieveOne] call made so far with its
    outcome. *)
Record Resolver : Type :=
  { names : gmap string string;
    calls : list (ManagedObjectReference * option string) }.

(** State of the second pass: [anonClusters] and the counter [idx].  The
    counter never exceeds [len(hosts)], an [int], so it cannot wrap. *)
Record Anon : Type := { labels : gmap string string; idx : Z }.

(** The header record of the CSV file. *)
Definition header : list string :=
  ["Hostname"; "Cluster"; "Server Model"; "ESXi Version"; "CPU Model";
   "Socket Count"; "Cores per Socket"; "Total Cores"; "Memory GB";
   "vSAN Type"; "vSAN Capacity Disks"; "vSAN Cache Disks";
   "vSAN Capacity TiB"].

(** Positions of the columns in a record. *)
Definition col_Hostname : nat := 0.
Definition col_Cluster : nat := 1.
Definition col_Sockets : nat := 5.
Definition col_CoresPerSocket : nat := 6.
Definition col_TotalCores : nat := 7.
Definition col_vsanType : nat := 9.
Definition col_CapacityDisks : nat := 10.
Definition col_CacheDisks : nat := 11.
Definition col_CapacityTiB : nat := 12.

(** [int64(d.Capacity.BlockSize) * int64(d.Capacity.Block)] *)
Definition diskBytes (d : HostScsiDisk) : Z :=
  Int.mul64 (BlockSize (Capacity d)) (Block (Capacity d)).

(** [float64(capacityBytes) / (1024 * 1024 * 1024 * 1024)] *)
Definition toTiB (capacityBytes : Z) : Float64.t :=
  Float64.div_pow2 (Float64.of_int64 capacityBytes)
    (Z.log2 (1024 * 1024 * 1024 * 1024)).

(** [vsanSys.Config.VsanEsaEnabled != nil && *vsanSys.Config.VsanEsaEnabled] *)
Definition isESA (vsanSys : HostVsanSystem) : bool :=
  match VsanEsaEnabled (Config vsanSys) with
  | Some b => b
  | None => false
  end.

(** [dr.Disk.VsanDiskInfo != nil] *)
Definition inUse (dr : VsanHostDiskResult) : bool :=
  match VsanDiskInfo (Disk dr) with Some _ => true | None => false end.

(** Body of the ESA loop over [res.Returnval], on the pair
    ([info.totalDisks], [capacityBytes]).  The disk counters are bounded by
    the lengths of slices held in memory and cannot wrap. *)
Definition esaDisk (acc : Z * Z) (dr : VsanHostDiskResult) : Z * Z :=
  if inUse dr
  then (acc.1 + 1, Int.add64 acc.2 (diskBytes (Disk dr)))
  else acc.

(** Body of the OSA loop over the disk groups. *)
Definition osaGroup (acc : Z * Z) (dm : VsanHostDiskMapping) : Z * Z :=
  (acc.1 + Z.of_nat (length (NonSsd dm)),
   foldl (fun c d => Int.add64 c (diskBytes d)) acc.2 (NonSsd dm)).

Section Engine.

(** [pc.RetrieveOne(ctx, *h.Parent, []string{"name"}, &parent)] while host
    [i] is processed: [Some name], or [None] for an error. *)
Variable RetrieveName : nat -> ManagedObjectReference -> option string.

(** [pc.RetrieveOne(ctx, *vsanRef, nil, &vsanSys)] *)
Variable RetrieveVsan : nat -> ManagedObjectReference -> option HostVsanSystem.

(** [methods.QueryDisksForVsan]; the answer is [res.Returnval]. *)
Variable QueryDisksForVsan :
  nat -> ManagedObjectReference -> option (list VsanHostDiskResult).

(** *** First pass: [parentNames] *)
Definition resolveHost (i : nat) (h : HostSystem) (st : Resolver) : Resolver :=
  match Parent h with
  | None => st
  | Some p =>
      match names st !! moValue p with
      | Some _ => st
      | None =>
          match RetrieveName i p with
          | None =>
              {| names := names st; calls := calls st ++ [(p, None)] |}
          | Some name =>
              {| names := <[moValue p := name]> (names st);
                 calls := calls st ++ [(p, Some name)] |}
          end
      end
  end.

Definition resolve (hosts : list HostSystem) : Resolver :=
  forRange resolveHost 0 hosts {| names := ∅; calls := [] |}.

Definition parentNames (hosts : list HostSystem) : gmap string string :=
  names (resolve hosts).

(** *** Second pass: [anonClusters] *)
Definition anonHost (pn : gmap string string) (i : nat) (h : HostSystem)
    (st : Anon) : Anon :=
  match Parent h with
  | None => st
  | Some p =>
      let realName := mapIndex "" pn (moValue p) in
      match labels st !! realName with
      | Some _ => st
      | None =>
          {| labels := <[realName := "Cluster " +:+ Itoa (idx st + 1)]> (labels st);
             idx := idx st + 1 |}
      end
  end.

Definition anonClusters (anonymize : bool) (hosts : list HostSystem)
    (pn : gmap string string) : gmap string string :=
  if anonymize
  then labels (forRange (anonHost pn) 0 hosts {| labels := ∅; idx := 0 |})
  else ∅.

(** *** Third pass: [vsanInfo]

    [hostVsanInfo] is one iteration up to the assignment
    [vsanInfo[h.Summary.Config.Name] = info]; [None] is a [continue]. *)
Definition hostVsanInfo (i : nat) (h : HostSystem) : option vsanHostInfo :=
  match VsanSystem (ConfigManager h) with
  | None => None
  | Some vsanRef =>
      match RetrieveVsan i vsanRef with
      | None => None
      | Some vsanSys =>
          if isESA vsanSys then
            let acc :=
              match QueryDisksForVsan i vsanRef with
              | None => (0, 0)
              | Some res => foldl esaDisk (0, 0) res
              end in
            Some {| capacityTiB := toTiB acc.2; totalDisks := acc.1;
                    cacheDisks := 0; clusterType := "ESA" |}
          else
            match StorageInfo (Config vsanSys) with
            | None => None
            | Some si =>
                if (length (DiskMapping si) =? 0)%nat then None
                else
                  let acc := foldl osaGroup (0, 0) (DiskMapping si) in
                  Some {| capacityTiB := toTiB acc.2; totalDisks := acc.1;
                          cacheDisks := Z.of_nat (length (DiskMapping si));
                          clusterType := "OSA" |}
            end
      end
  end.

Definition vsanHost (i : nat) (h : HostSystem)
    (m : gmap string vsanHostInfo) : gmap string vsanHostInfo :=
  match hostVsanInfo i h with
  | None => m
  | Some info => <[hostName h := info]> m
  end.

Definition vsanInfo (hosts : list HostSystem) : gmap string vsanHostInfo :=
  forRange vsanHost 0 hosts ∅.

(** *** The row builder

    One record of thirteen strings per host; [None] stands for a run-time
    panic. *)
Definition coresPerSocket (sockets totalCores : Z) : option Z :=
  if 0 <? sockets then Int.quo16 totalCores sockets else Some 0.

Definition cpuFields (h : HostSystem) : option (Z * Z * Z * Z) :=
  match Hardware h with
  | None => Some (0, 0, 0, 0)
  | Some hw =>
      let sockets := NumCpuPackages (CpuInfo hw) in
      let totalCores := NumCpuCores (CpuInfo hw) in
      cps ← coresPerSocket sockets totalCores;
      Some (sockets, totalCores, cps,
            Z.quot (MemorySize hw) (1024 * 1024 * 1024))
  end.

Definition writeRow (anonymize : bool) (pn ac : gmap string string)
    (vi : gmap string vsanHostInfo) (i : nat) (h : HostSystem)
    : option (list string) :=
  let hostname :=
    if anonymize then "Host " +:+ Itoa (Z.of_nat i + 1) else hostName h in
  let cluster :=
    match Parent h with
    | None => ""
    | Some p =>
        let cluster := mapIndex "" pn (moValue p) in
        if anonymize then mapIndex "" ac cluster else cluster
    end in
  let serverModel :=
    match SummaryHardware (Summary h) with
    | Some hw => Model hw
    | None => ""
    end in
  let esxiVersion :=
    match Product (SummaryConfig (Summary h)) with
    | Some p => Version p
    | None => ""
    end in
  let cpuModel :=
    match Hardware h with
    | Some hw =>
        match CpuPkg hw with
        | pkg :: _ => Description pkg
        | [] => ""
        end
    | None => ""
    end in
  '(sockets, totalCores, cps, memoryGB) ← cpuFields h;
  let info := mapIndex zeroInfo vi (hostName h) in
  Some [hostname; cluster; serverModel; esxiVersion; cpuModel;
        Itoa sockets; Itoa cps; Itoa totalCores; Itoa memoryGB;
        clusterType info; Itoa (totalDisks info); Itoa (cacheDisks info);
        Float64.Sprintf_1f (capacityTiB info)].

Fixpoint writeRows (anonymize : bool) (pn ac : gmap string string)
    (vi : gmap string vsanHostInfo) (i : nat) (hosts : list HostSystem)
    : option (list (list string)) :=
  match hosts with
  | [] => Some []
  | h :: tl =>
      r ← writeRow anonymize pn ac vi i h;
      rs ← writeRows anonymize pn ac vi (S i) tl;
      Some (r :: rs)
  end.

(** The records handed to the CSV writer, header excluded. *)
Definition main (anonymize : bool) (hosts : list HostSystem)
    : option (list (list string)) :=
  let pn := parentNames hosts in
  let ac := anonClusters anonymize hosts pn in
  let vi := vsanInfo hosts in
  writeRows anonymize pn ac vi 0 hosts.

End Engine.

(** ** Sample inventory used in the examples *)
Module Sample.

Definition ref (ty v : string) : ManagedObjectReference :=
  {| moType := ty; moValue := v |}.

Definition disk (blockSize blocks : Z) (claimed : bool) : HostScsiDisk :=
  {| Capacity := {| BlockSize := blockSize; Block := blocks |};
     VsanDiskInfo :=
       if claimed then Some {| VsanUuid := "52e1"; FormatVersion := 19 |}
       else None |}.

Definition hardware (sockets cores mem : Z) : HostHardwareInfo :=
  {| CpuPkg := [{| Description := "Intel(R) Xeon(R) Gold 6338" |}];
     CpuInfo := {| NumCpuPackages := sockets; NumCpuCores := cores |};
     MemorySize := mem |}.

Definition host (name : string) (parent vsan : option string)
    (hw : option HostHardwareInfo) : HostSystem :=
  {| Summary :=
       {| SummaryHardware := Some {| Model := "PowerEdge R750" |};
          SummaryConfig :=
            {| Name := name; Product := Some {| Version := "8.0.2" |} |} |};
     Hardware := hw;
     ConfigManager := {| VsanSystem := ref "HostVsanSystem" <$> vsan |};
     Parent := ref "ClusterComputeResource" <$> parent |}.

Definition vsanSystem (esa : option bool)
    (groups : option (list VsanHostDiskMapping)) : HostVsanSystem :=
  {| Config :=
       {| VsanEsaEnabled := esa;
          StorageInfo := (fun g => {| DiskMapping := g |}) <$> groups |} |}.

(** One disk group: a cache SSD and four capacity disks of 10^12 bytes. *)
Definition group4 : VsanHostDiskMapping :=
  {| Ssd := disk 512 781250000 true;
     NonSsd := replicate 4 (disk 512 1953125000 true) |}.

Definition esx1 : HostSystem :=
  host "esx1" (Some "domain-c8") (Some "vsan-1")
    (Some (hardware 2 32 137438953472)).
Definition esx2 : HostSystem :=
  host "esx2" (Some "domain-c8") (Some "vsan-2") (Some (hardware 0 0 0)).
Definition esx3 : HostSystem :=
  host "esx3" (Some "domain-c9") (Some "vsan-3") None.
Definition esx4 : HostSystem := host "esx4" None None None.

(** Every group name resolves. *)
Definition namesOK (i : nat) (p : ManagedObjectReference) : option string :=
  Some ("Prod-" +:+ moValue p).

(** No group name resolves. *)
Definition namesDown (i : nat) (p : ManagedObjectReference) : option string :=
  None.

(** esx1 is OSA with one disk group, esx2 ESA, esx3 OSA without groups. *)
Definition vsanOK (i : nat) (p : ManagedObjectReference) : option HostVsanSystem :=
  if decide (moValue p = "vsan-1") then Some (vsanSystem None (Some [group4]))
  else if decide (moValue p = "vsan-2") then Some (vsanSystem (Some true) None)
  else if decide (moValue p = "vsan-3") then Some (vsanSystem (Some false) (Some []))
  else None.

(** Three disks, of which two are claimed by vSAN. *)
Definition disksOK (i : nat) (p : ManagedObjectReference)
    : option (list VsanHostDiskResult) :=
  Some [ {| Disk := disk 512 1875000000 true; State := "inUse" |};
         {| Disk := disk 512 1875000000 false; State := "eligible" |};
         {| Disk := disk 512 1875000000 true; State := "inUse" |} ].


(** A second host registered under the display name of [esx2], outside the
    storage cluster. *)
Definition esx2_bare : HostSystem := host "esx2" None None None.

Definition inventory : list HostSystem := [esx1; esx2; esx3; esx4].

End Sample.

(** ** Statements about the program

    The calls made for the back-reference [v]. *)
Definition callsFor (v : string)
    (cs : list (ManagedObjectReference * option string))
    : list (ManagedObjectReference * option string) :=
  filter (fun c => moValue c.1 = v) cs.

(** Claimed by the specification for the first pass: no group
    back-reference is ever requested twice. *)
Definition resolved_at_most_once
    (RetrieveName : nat -> ManagedObjectReference -> option string)
    (hosts : list HostSystem) : Prop :=
  forall v, (length (callsFor v (calls (resolve RetrieveName hosts))) <= 1)%nat.

(** The outcomes of the calls made for one back-reference: failures, then
    the successful answer once the memo holds the name. *)
Definition memo_inv (st : Resolver) : Prop :=
  forall v, exists k,
    (snd <$> callsFor v (calls st))
    = (replicate k None ++ option_list (Some <$> names st !! v))%list.

(** Sum of [f] over a list. *)
Definition sumZ {A : Type} (f : A -> Z) (l : list A) : Z :=
  foldr (fun x s => f x + s) 0 l.

(** Raw capacity of a disk in bytes, as a mathematical integer. *)
Definition rawBytes (d : HostScsiDisk) : Z :=
  BlockSize (Capacity d) * Block (Capacity d).

(** Number of capacity disks and raw bytes of a list of disk groups. *)
Definition groupDisks (groups : list VsanHostDiskMapping) : Z :=
  sumZ (fun dm => Z.of_nat (length (NonSsd dm))) groups.

Definition groupBytes (groups : list VsanHostDiskMapping) : Z :=
  sumZ (fun dm => sumZ rawBytes (NonSsd dm)) groups.

(** The four storage columns of a record, as rendered from stored facts. *)
Definition renderInfo (info : vsanHostInfo) : list string :=
  [clusterType info; Itoa (totalDisks info); Itoa (cacheDisks info);
   Float64.Sprintf_1f (capacityTiB info)].

Definition storageColumns (row : list string) : list string :=
  drop col_vsanType row.

(** The value [writeRow] puts in the "Cores per Socket" column. *)
Definition coresPerSocketOf (h : HostSystem) : Z :=
  match Hardware h with
  | None => 0
  | Some hw =>
      if 0 <? NumCpuPackages (CpuInfo hw)
      then Z.quot (NumCpuCores (CpuInfo hw)) (NumCpuPackages (CpuInfo hw))
      else 0
  end.

(** The CPU counters of a host fit their type [int16]. *)
Definition cpuInfo_int16 (h : HostSystem) : Prop :=
  forall hw, Hardware h = Some hw ->
    Int.in_range 16 (NumCpuPackages (CpuInfo hw))
    /\ Int.in_range 16 (NumCpuCores (CpuInfo hw)).


Definition osa_without_groups
    (RetrieveVsan : nat -> ManagedObjectReference -> option HostVsanSystem)
    (i : nat) (h : HostSystem) : Prop :=
  exists vsanRef vsanSys,
    VsanSystem (ConfigManager h) = Some vsanRef
    /\ RetrieveVsan i vsanRef = Some vsanSys
    /\ isESA vsanSys = false
    /\ (StorageInfo (Config vsanSys) = None
        \/ exists si, StorageInfo (Config vsanSys) = Some si
                      /\ DiskMapping si = []).

(** Claimed by the specification for the join of storage facts to records:
    when two hosts bear one display name, the records carry what the pass
    computed for the later one ([zeroInfo] standing for architecture NONE). *)
Definition later_host_facts_win
    (RetrieveName : nat -> ManagedObjectReference -> option string)
    (RetrieveVsan : nat -> ManagedObjectReference -> option HostVsanSystem)
    (QueryDisksForVsan :
       nat -> ManagedObjectReference -> option (list VsanHostDiskResult))
    (anonymize : bool) (hosts : list HostSystem) : Prop :=
  forall i j hi hj rows row,
    (i < j)%nat ->
    hosts !! i = Some hi -> hosts !! j = Some hj ->
    hostName hi = hostName hj ->
    length hosts = S j ->
    main RetrieveName RetrieveVsan QueryDisksForVsan anonymize hosts = Some rows ->
    rows !! i = Some row ->
    storageColumns row
    = renderInfo (default zeroInfo (hostVsanInfo RetrieveVsan QueryDisksForVsan j hj)).

(** The real group name the second pass looks up for a host; [None] for a
    host without parent. *)
Definition realNameOf (pn : gmap string string) (h : HostSystem) : option string :=
  (fun p => mapIndex "" pn (moValue p)) <$> Parent h.

Definition realNames (pn : gmap string string) (hosts : list HostSystem)
    : list string :=
  omap (realNameOf pn) hosts.

(** First-encounter order of a list of names: every name once, in the order
    of the first occurrences. *)
Definition encounter (seen : list string) (x : string) : list string :=
  if decide (x ∈ seen) then seen else seen ++ [x].

Definition firstEncounters (l : list string) : list string :=
  foldl encounter [] l.

(** The label of the name at position [k] (from 0) of the encounter order. *)
Definition clusterLabel (k : nat) : string :=
  "Cluster " +:+ Itoa (Z.of_nat k + 1).

(** The state of the second pass after the names [seen] have been met. *)
Definition anon_inv (st : Anon) (seen : list string) : Prop :=
  idx st = Z.of_nat (length seen)
  /\ NoDup seen
  /\ forall name l,
       labels st !! name = Some l
       <-> exists k, seen !! k = Some name /\ l = clusterLabel k.

(** Claimed by the specification for the capacity column: the stored value
    is the byte count over 1024^4 and its rendering cuts the value after
    the first decimal instead of rounding it. *)
Definition truncated_tenths (x : Float64.t) : Z :=
  let n := Z.abs (Float64.fnum x) in
  if 0 <=? Float64.fexp x then 10 * n * 2 ^ Float64.fexp x
  else (10 * n) / 2 ^ (- Float64.fexp x).

Definition Sprintf_1f_truncated (x : Float64.t) : string :=
  Float64.render_tenths (Float64.fnum x <? 0) (truncated_tenths x).

Definition capacity_rendered_truncated (capacityBytes : Z) : Prop :=
  (Float64.toQ (toTiB capacityBytes)
   == inject_Z capacityBytes / inject_Z (1024 ^ 4))%Q
  /\ Float64.Sprintf_1f (toTiB capacityBytes)
     = Sprintf_1f_truncated (toTiB capacityBytes).

(** Claimed by the specification for a host whose group name failed to
    resolve: an empty Cluster column, anonymised or not. *)
Definition unresolved_cluster_empty
    (RetrieveName : nat -> ManagedObjectReference -> option string)
    (RetrieveVsan : nat -> ManagedObjectReference -> option HostVsanSystem)
    (QueryDisksForVsan :
       nat -> ManagedObjectReference -> option (list VsanHostDiskResult))
    (anonymize : bool) (hosts : list HostSystem) : Prop :=
  forall i h p rows row,
    hosts !! i = Some h ->
    Parent h = Some p ->
    parentNames RetrieveName hosts !! moValue p = None ->
    main RetrieveName RetrieveVsan QueryDisksForVsan anonymize hosts = Some rows ->
    rows !! i = Some row ->
    row !! col_Cluster = Some "".

(** Among the hosts whose parent has the value [v], numbered from [i0], host
    [j] is the first whose lookup succeeds, and the answer is [n]. *)
Definition first_success
    (RetrieveName : nat -> ManagedObjectReference -> option string)
    (i0 : nat) (hosts : list HostSystem) (v n : string) : Prop :=
  exists j h p,
    hosts !! j = Some h /\ Parent h = Some p /\ moValue p = v
    /\ RetrieveName (i0 + j)%nat p = Some n
    /\ forall j' h' p',
         (j' < j)%nat -> hosts !! j' = Some h' -> Parent h' = Some p' ->
         moValue p' = v -> RetrieveName (i0 + j')%nat p' = None.

(** Every lookup made for the value [v] among the hosts fails. *)
Definition all_lookups_fail
    (RetrieveName : nat -> ManagedObjectReference -> option string)
    (i0 : nat) (hosts : list HostSystem) (v : string) : Prop :=
  forall j h p,
    hosts !! j = Some h -> Parent h = Some p -> moValue p = v ->
    RetrieveName (i0 + j)%nat p = None.

(** The calls that returned a name. *)
Definition succeeded (c : ManagedObjectReference * option string) : Prop :=
  is_Some c.2.

(** The hosts that have a parent. *)
Definition grouped (h : HostSystem) : Prop := is_Some (Parent h).

(** The configuration of the storage subsystem of a host cannot be
    fetched. *)
Definition config_fetch_fails
    (RetrieveVsan : nat -> ManagedObjectReference -> option HostVsanSystem)
    (i : nat) (h : HostSystem) : Prop :=
  exists vsanRef,
    VsanSystem (ConfigManager h) = Some vsanRef
    /\ RetrieveVsan i vsanRef = None.

(** Facts as the third pass can store them: a non-negative disk count, and
    either the tag "ESA" without cache disk or the tag "OSA" with at least
    one. *)
Definition well_tagged (info : vsanHostInfo) : Prop :=
  0 <= totalDisks info
  /\ ((clusterType info = "ESA" /\ cacheDisks info = 0)
      \/ (clusterType info = "OSA" /\ 1 <= cacheDisks info)).

(** ** The run as a whole

    [main] from the flags to the exit status, as the sequence of what it
    does on the terminal, the vCenter session, the log and the output file.
    The collaborators answer through [Services].  The property-collector
    calls of the three passes are those of [resolve] and [hostVsanInfo]; of
    the passes the sequence keeps the warnings and the [-debug] dumps.  A
    [log.Fatalf] exits at once, so the deferred [v.Destroy] and
    [client.Logout] run only when [main] returns. *)
Module Flag.

(** The values of the command-line flags after [flag.Parse]. *)
Record t : Type :=
  { host : string; user : string; password : string; output : string;
    insecure : bool; anonymize : bool; debug : bool }.

End Flag.

Record Services : Type :=
  { (** [term.ReadPassword]: the typed password, or an error *)
    ReadPassword : option string;
    (** [url.Parse] accepts the URL *)
    urlParse : string -> bool;
    (** [govmomi.NewClient] on URL, user, password and the insecure flag *)
    NewClient : string -> string -> string -> bool -> bool;
    (** [m.CreateContainerView] succeeds *)
    CreateContainerView : bool;
    (** [v.Retrieve]: the hosts, or an error *)
    Retrieve : option (list HostSystem);
    RetrieveOneName : nat -> ManagedObjectReference -> option string;
    RetrieveOneVsan : nat -> ManagedObjectReference -> option HostVsanSystem;
    QueryDisks : nat -> ManagedObjectReference -> option (list VsanHostDiskResult);
    (** [os.Create] succeeds on the path *)
    osCreate : string -> bool;
    (** [w.Error()] after [w.Flush()] reports an error *)
    csvError : bool;
    (** [f.Close()] reports an error *)
    closeError : bool }.

(** The [log.Printf] warnings of the passes, by the host they name. *)
Inductive Warning : Type :=
  | NoClusterName (hostname : string)
  | NoVsanConfig (hostname : string)
  | NoVsanDisks (hostname : string).

Inductive Event : Type :=
  | Usage                       (* flag.Usage() *)
  | PromptPassword              (* "Password: ", term.ReadPassword, newline *)
  | Connect (rawurl user password : string) (insecure : bool)
  | CreateView
  | RetrieveHosts
  | Warn (w : Warning)
  | DebugVsanSystem (hostname : string)   (* fmt.Printf of the vSAN system *)
  | DebugVsanDisks (hostname : string)    (* fmt.Printf of the vSAN disks *)
  | CreateFile (path : string)
  | WriteRecord (record : list string)
  | Flush
  | CloseFile
  | Stderr (text : string)
  | Destroy                     (* deferred v.Destroy(ctx) *)
  | Logout                      (* deferred client.Logout(ctx) *)
  | Fatal (message : string)    (* log.Fatalf, which exits with status 1 *)
  | Panic.

Definition newline : string := String (Ascii.ascii_of_nat 10) "".

(** The warning of one iteration of the first pass, given the state before
    the iteration. *)
Definition resolveWarning
    (RetrieveName : nat -> ManagedObjectReference -> option string)
    (i : nat) (h : HostSystem) (st : Resolver) : list Warning :=
  match Parent h with
  | None => []
  | Some p =>
      match names st !! moValue p with
      | Some _ => []
      | None =>
          match RetrieveName i p with
          | None => [NoClusterName (hostName h)]
          | Some _ => []
          end
      end
  end.

(** The first pass together with its warnings. *)
Definition resolveLogged
    (RetrieveName : nat -> ManagedObjectReference -> option string)
    (hosts : list HostSystem) : Resolver * list Warning :=
  forRange
    (fun i h acc =>
       (resolveHost RetrieveName i h acc.1,
        (acc.2 ++ resolveWarning RetrieveName i h acc.1)%list))
    0 hosts ({| names := ∅; calls := [] |}, []).

(** What one iteration of the third pass writes to the log and, with
    [-debug], to the standard output. *)
Definition hostVsanEvents
    (RetrieveVsan : nat -> ManagedObjectReference -> option HostVsanSystem)
    (QueryDisksForVsan :
       nat -> ManagedObjectReference -> option (list VsanHostDiskResult))
    (debug : bool) (i : nat) (h : HostSystem) : list Event :=
  match VsanSystem (ConfigManager h) with
  | None => []
  | Some vsanRef =>
      match RetrieveVsan i vsanRef with
      | None => [Warn (NoVsanConfig (hostName h))]
      | Some vsanSys =>
          ((if debug then [DebugVsanSystem (hostName h)] else [])
           ++ (if isESA vsanSys then
                 match QueryDisksForVsan i vsanRef with
                 | None => [Warn (NoVsanDisks (hostName h))]
                 | Some _ => if debug then [DebugVsanDisks (hostName h)] else []
                 end
               else []))%list
      end
  end.

Definition passEvents (sv : Services) (debug : bool) (hosts : list HostSystem)
    : list Event :=
  ((Warn <$> (resolveLogged (RetrieveOneName sv) hosts).2)
   ++ concat (imap (hostVsanEvents (RetrieveOneVsan sv) (QueryDisks sv) debug)
                hosts))%list.

(** The events of a run from the return of [flag.Parse] on an accepted
    command line, with the flag values [fl], and its exit status; the exits
    of [flag.Parse] itself are those of [execute] below.  The branch in
    which [main] yields no records stands for a run-time panic while the
    rows are built (exit status 2); [main] always yields records, so it is
    never taken. *)
Definition program (fl : Flag.t) (sv : Services) : list Event * Z :=
  if decide (Flag.host fl = "" \/ Flag.user fl = "") then ([Usage], 1)
  else
    let prompt := bool_decide (Flag.password fl = "") in
    let ev0 := if prompt then [PromptPassword] else [] in
    match (if prompt then ReadPassword sv else Some (Flag.password fl)) with
    | None => ((ev0 ++ [Fatal "Error reading password"])%list, 1)
    | Some password =>
        let rawurl := "https://" +:+ Flag.host fl +:+ "/sdk" in
        if negb (urlParse sv rawurl)
        then ((ev0 ++ [Fatal "Error parsing URL"])%list, 1)
        else
          let ev1 :=
            (ev0 ++ [Connect rawurl (Flag.user fl) password (Flag.insecure fl)])%list in
          if negb (NewClient sv rawurl (Flag.user fl) password (Flag.insecure fl))
          then ((ev1 ++ [Fatal "Error connecting to vCenter"])%list, 1)
          else
            let ev2 := (ev1 ++ [CreateView])%list in
            if negb (CreateContainerView sv)
            then ((ev2 ++ [Fatal "Error creating container view"])%list, 1)
            else
              let ev3 := (ev2 ++ [RetrieveHosts])%list in
              match Retrieve sv with
              | None => ((ev3 ++ [Fatal "Error retrieving hosts"])%list, 1)
              | Some hosts =>
                  let ev4 :=
                    (ev3 ++ passEvents sv (Flag.debug fl) hosts
                         ++ [CreateFile (Flag.output fl)])%list in
                  if negb (osCreate sv (Flag.output fl))
                  then ((ev4 ++ [Fatal "Error creating output file"])%list, 1)
                  else
                    match main (RetrieveOneName sv) (RetrieveOneVsan sv)
                            (QueryDisks sv) (Flag.anonymize fl) hosts with
                    | None => ((ev4 ++ [WriteRecord header; Panic])%list, 2)
                    | Some rows =>
                        let ev5 :=
                          (ev4 ++ [WriteRecord header]
                               ++ (WriteRecord <$> rows) ++ [Flush])%list in
                        if csvError sv
                        then ((ev5 ++ [Fatal "Error writing CSV"])%list, 1)
                        else
                          let ev6 := (ev5 ++ [CloseFile])%list in
                          if closeError sv
                          then ((ev6 ++ [Fatal "Error closing output file"])%list, 1)
                          else
                            ((ev6 ++ [Stderr ("Wrote "
                                              +:+ Itoa (Z.of_nat (length hosts))
                                              +:+ " hosts to "
                                              +:+ Flag.output fl +:+ newline);
                                      Destroy; Logout])%list, 0)
                    end
              end
    end.

(** The calls of a list that failed. *)
Definition failed (c : ManagedObjectReference * option string) : Prop :=
  c.2 = None.

(** Sample flags and services: everything answers. *)
Definition sampleFlags : Flag.t :=
  {| Flag.host := "vcenter.example.com";
     Flag.user := "administrator@vsphere.local";
     Flag.password := ""; Flag.output := "hosts_cpu.csv";
     Flag.insecure := true; Flag.anonymize := false; Flag.debug := false |}.

Definition sampleServices : Services :=
  {| ReadPassword := Some "secret";
     urlParse := fun _ => true;
     NewClient := fun _ _ _ _ => true;
     CreateContainerView := true;
     Retrieve := Some [Sample.esx1; Sample.esx4];
     RetrieveOneName := Sample.namesOK;
     RetrieveOneVsan := Sample.vsanOK;
     QueryDisks := Sample.disksOK;
     osCreate := fun _ => true;
     csvError := false;
     closeError := false |}.

(** The events of the passes: warnings and dumps. *)
Definition pass_event (e : Event) : Prop :=
  match e with
  | Warn _ | DebugVsanSystem _ | DebugVsanDisks _ => True
  | _ => False
  end.

(** The [-debug] dumps. *)
Definition isDump (e : Event) : bool :=
  match e with
  | DebugVsanSystem _ | DebugVsanDisks _ => true
  | _ => false
  end.

(** The records handed to the CSV writer, in order. *)
Definition recordsWritten (evs : list Event) : list (list string) :=
  omap (fun e => match e with WriteRecord r => Some r | _ => None end) evs.

(** The flags with [-debug] switched off. *)
Definition withoutDebug (fl : Flag.t) : Flag.t :=
  {| Flag.host := Flag.host fl; Flag.user := Flag.user fl;
     Flag.password := Flag.password fl; Flag.output := Flag.output fl;
     Flag.insecure := Flag.insecure fl; Flag.anonymize := Flag.anonymize fl;
     Flag.debug := false |}.

(** The events of a sequence other than the [-debug] dumps. *)
Definition withoutDumps (evs : list Event) : list Event :=
  filter (fun e => isDump e = false) evs.

(** A host whose storage subsystem does not answer on the sample
    services. *)
Definition esx5 : HostSystem :=
  Sample.host "esx5" (Some "domain-c8") (Some "vsan-9")
    (Some (Sample.hardware 2 16 68719476736)).

(** ** The build script

    The parameter expansions by which the script of the repository splits
    an entry "os/arch/label" of [platforms] and names the binary. *)
Module Build.

Definition isSlash (c : Ascii.ascii) : bool := Ascii.eqb c "/"%char.

(** The part after the first slash, if there is a slash. *)
Fixpoint afterFirstSlash (s : string) : option string :=
  match s with
  | EmptyString => None
  | String c r => if isSlash c then Some r else afterFirstSlash r
  end.

(** The part after the last slash, if there is a slash. *)
Fixpoint afterLastSlash (s : string) : option string :=
  match s with
  | EmptyString => None
  | String c r =>
      match afterLastSlash r with
      | Some t => Some t
      | None => if isSlash c then Some r else None
      end
  end.

(** The part before the last slash, if there is a slash. *)
Fixpoint beforeLastSlash (s : string) : option string :=
  match s with
  | EmptyString => None
  | String c r =>
      match beforeLastSlash r with
      | Some t => Some (String c t)
      | None => if isSlash c then Some EmptyString else None
      end
  end.

(** [${s%%/*}]: the longest suffix that starts with a slash is removed. *)
Fixpoint dropFromFirstSlash (s : string) : string :=
  match s with
  | EmptyString => EmptyString
  | String c r => if isSlash c then EmptyString else String c (dropFromFirstSlash r)
  end.

(** [${s#*/}]: the shortest prefix that ends with a slash is removed. *)
Definition dropToFirstSlash (s : string) : string :=
  default s (afterFirstSlash s).

(** [${s%/*}]: the shortest suffix that starts with a slash is removed. *)
Definition dropFromLastSlash (s : string) : string :=
  default s (beforeLastSlash s).

(** [${s##*/}]: the longest prefix that ends with a slash is removed. *)
Definition dropToLastSlash (s : string) : string :=
  default s (afterLastSlash s).

Definition OUTPUT_DIR : string := "dist".
Definition MODULE : string := "vmware-inventory".

Definition platforms : list string :=
  ["darwin/arm64/mac"; "linux/amd64/linux"; "windows/amd64/windows"].

(** One iteration of the loop: [GOOS], [GOARCH] and the path given to
    [go build -o]. *)
Definition target (platform : string) : string * string * string :=
  let GOOS := dropFromFirstSlash platform in
  let GOARCH := dropFromLastSlash (dropToFirstSlash platform) in
  let LABEL := dropToLastSlash platform in
  let output := OUTPUT_DIR +:+ "/" +:+ MODULE +:+ "-" +:+ LABEL +:+ "-" +:+ GOARCH in
  (GOOS, GOARCH,
   if decide (GOOS = "windows") then output +:+ ".exe" else output).

(** A string without slash. *)
Fixpoint noSlash (s : string) : bool :=
  match s with
  | EmptyString => true
  | String c r => negb (isSlash c) && noSlash r
  end.

End Build.

(** The lookups the first pass makes for the back-reference value [v], host
    by host from position [i]: every host whose parent has the value [v]
    triggers a lookup, up to and including the first one that succeeds. *)
Fixpoint attempts
    (RetrieveName : nat -> ManagedObjectReference -> option string)
    (i : nat) (hosts : list HostSystem) (v : string)
    : list (ManagedObjectReference * option string) :=
  match hosts with
  | [] => []
  | h :: tl =>
      match Parent h with
      | None => attempts RetrieveName (S i) tl v
      | Some p =>
          if decide (moValue p = v) then
            match RetrieveName i p with
            | Some name => [(p, Some name)]
            | None => (p, None) :: attempts RetrieveName (S i) tl v
            end
          else attempts RetrieveName (S i) tl v
      end
  end.

(** The parent of the host has the value [v]. *)
Definition shares (v : string) (h : HostSystem) : Prop :=
  match Parent h with
  | Some p => moValue p = v
  | None => False
  end.

Global Instance shares_dec v h : Decision (shares v h).
Proof. unfold shares. destruct (Parent h); apply _. Defined.

(** Claimed by the specification for the disk-group architecture: the
    capacity of a host is the plain sum of block size times block count
    over the non-SSD disks of its groups. *)
Definition osa_capacity_is_sum
    (RetrieveVsan : nat -> ManagedObjectReference -> option HostVsanSystem)
    (QueryDisksForVsan :
       nat -> ManagedObjectReference -> option (list VsanHostDiskResult))
    (i : nat) (h : HostSystem) : Prop :=
  forall vsanRef vsanSys si,
    VsanSystem (ConfigManager h) = Some vsanRef ->
    RetrieveVsan i vsanRef = Some vsanSys ->
    isESA vsanSys = false ->
    StorageInfo (Config vsanSys) = Some si ->
    DiskMapping si <> [] ->
    exists info,
      hostVsanInfo RetrieveVsan QueryDisksForVsan i h = Some info
      /\ cacheDisks info = Z.of_nat (length (DiskMapping si))
      /\ totalDisks info = groupDisks (DiskMapping si)
      /\ (Float64.toQ (capacityTiB info)
          == inject_Z (groupBytes (DiskMapping si)) / inject_Z (1024 ^ 4))%Q.

(** Claimed by the specification for the disk-aggregate architecture: the
    capacity of a host is the plain sum of block size times block count
    over its in-use disks. *)
Definition esa_capacity_is_sum
    (RetrieveVsan : nat -> ManagedObjectReference -> option HostVsanSystem)
    (QueryDisksForVsan :
       nat -> ManagedObjectReference -> option (list VsanHostDiskResult))
    (i : nat) (h : HostSystem) : Prop :=
  forall vsanRef vsanSys res,
    VsanSystem (ConfigManager h) = Some vsanRef ->
    RetrieveVsan i vsanRef = Some vsanSys ->
    isESA vsanSys = true ->
    QueryDisksForVsan i vsanRef = Some res ->
    exists info,
      hostVsanInfo RetrieveVsan QueryDisksForVsan i h = Some info
      /\ cacheDisks info = 0
      /\ totalDisks info = Z.of_nat (length (filter inUse res))
      /\ (Float64.toQ (capacityTiB info)
          == inject_Z (sumZ (fun dr => rawBytes (Disk dr)) (filter inUse res))
             / inject_Z (1024 ^ 4))%Q.


(** Disks whose byte count does not fit an [int64]: one disk group with a
    single capacity disk of 4096 * 2^52 bytes, and one in-use disk of
    512 * 2^54 bytes. *)
Definition vsanHuge (i : nat) (p : ManagedObjectReference)
    : option HostVsanSystem :=
  Some (Sample.vsanSystem None
          (Some [ {| Ssd := Sample.disk 512 781250000 true;
                     NonSsd := [Sample.disk 4096 (2 ^ 52) true] |} ])).

Definition disksHuge (i : nat) (p : ManagedObjectReference)
    : option (list VsanHostDiskResult) :=
  Some [ {| Disk := Sample.disk 512 (2 ^ 54) true; State := "inUse" |} ].

(** The outcome of [flag.Parse] on the command line.  The flags are those of
    the default flag set, whose error handling is [flag.ExitOnError]: on
    [-h] or [-help] the usage text is printed and the process exits with
    status 0; on any other parse error the message and the usage text are
    printed and the process exits with status 2. *)
Inductive Parsed : Type :=
  | FlagsOK (fl : Flag.t)
  | FlagHelp
  | FlagError (message : string).

(** The events of a process from its start and its exit status: what
    [flag.Parse] does on a rejected command line, and [program] on an
    accepted one. *)
Definition execute (p : Parsed) (sv : Services) : list Event * Z :=
  match p with
  | FlagsOK fl => program fl sv
  | FlagHelp => ([Usage], 0)
  | FlagError message => ([Stderr message; Usage], 2)
  end.

(** * Properties *)

(** ** Arithmetic of the machine integers *)
Module IntFacts.
Import Int.

Lemma wrap_id w z : 0 < w -> in_range w z -> wrap w z = z.
Proof.
  unfold wrap, in_range. intros Hw Hz.
  assert (E : 2 ^ w = 2 * 2 ^ (w - 1)).
  { replace w with (Z.succ (w - 1)) at 1 by lia. apply Z.pow_succ_r. lia. }
  rewrite Z.mod_small; lia.
Qed.

Lemma wrap_in_range w z : 0 < w -> in_range w (wrap w z).
Proof.
  unfold wrap, in_range. intros Hw.
  assert (E : 2 ^ w = 2 * 2 ^ (w - 1)).
  { replace w with (Z.succ (w - 1)) at 1 by lia. apply Z.pow_succ_r. lia. }
  assert (0 < 2 ^ (w - 1)) by (apply Z.pow_pos_nonneg; lia).
  pose proof (Z.mod_pos_bound (z + 2 ^ (w - 1)) (2 ^ w)). lia.
Qed.

(** Wrapping is compatible with addition: only the final sum matters. *)
Lemma add64_wrap_l a b : add64 (int64 a) b = int64 (a + b).
Proof.
  unfold add64, int64, wrap.
  f_equal.
  replace ((a + 2 ^ (64 - 1)) mod 2 ^ 64 - 2 ^ (64 - 1) + b + 2 ^ (64 - 1))
    with ((a + 2 ^ (64 - 1)) mod 2 ^ 64 + b) by lia.
  rewrite Zplus_mod_idemp_l. f_equal. lia.
Qed.

Lemma add64_wrap_r a b : add64 a (int64 b) = int64 (a + b).
Proof.
  unfold add64. rewrite (Z.add_comm a), (Z.add_comm a b).
  apply add64_wrap_l.
Qed.

Lemma add64_wrap a b : add64 (int64 a) (int64 b) = int64 (a + b).
Proof. rewrite add64_wrap_l. apply (add64_wrap_r a b). Qed.

End IntFacts.

Lemma Itoa_inj a b : Itoa a = Itoa b -> a = b.
Proof. apply pretty_Z_inj. Qed.

Example of_int64_small : Float64.of_int64 4000000000000 = Float64.mk 4000000000000 0.
Proof. reflexivity. Qed.

Example of_int64_rounds :
  Float64.toQ (Float64.of_int64 (2 ^ 53 + 1)) == inject_Z (2 ^ 53).
Proof. vm_compute. reflexivity. Qed.

Example ieee_cross_check :
  forallb (fun z => Float64.agrees_with_ieee z 40)
    [0; 1; 962072674304; 4000000000000; -5; 2 ^ 53; 2 ^ 53 + 1; 2 ^ 53 + 3;
     2 ^ 62 + 12345; 2 ^ 63 - 1; - 2 ^ 63] = true.
Proof. vm_compute. reflexivity. Qed.

Example Sprintf_1f_spec_example :
  Float64.Sprintf_1f (Float64.div_pow2 (Float64.of_int64 4000000000000) 40) = "3.6".
Proof. vm_compute. reflexivity. Qed.

Example sample_rows :
  main Sample.namesOK Sample.vsanOK Sample.disksOK false [Sample.esx1; Sample.esx4]
  = Some
      [["esx1"; "Prod-domain-c8"; "PowerEdge R750"; "8.0.2";
        "Intel(R) Xeon(R) Gold 6338"; "2"; "16"; "32"; "128"; "OSA"; "4";
        "1"; "3.6"];
       ["esx4"; ""; "PowerEdge R750"; "8.0.2"; ""; "0"; "0"; "0"; "0"; "";
        "0"; "0"; "0.0"]].
Proof. vm_compute. reflexivity. Qed.

(** ** Loops *)
Section ForRange.
Context {A St : Type} (body : nat -> A -> St -> St).

Lemma forRange_app i l1 l2 st :
  forRange body i (l1 ++ l2) st
  = forRange body (i + length l1) l2 (forRange body i l1 st).
Proof.
  revert i st. induction l1 as [|x l1 IH]; intros i st; simpl.
  - by rewrite Nat.add_0_r.
  - rewrite IH. f_equal. lia.
Qed.

(** An invariant kept by every iteration holds after the loop. *)
Lemma forRange_invariant (Inv : St -> Prop) l :
  (forall i x st, Inv st -> Inv (body i x st)) ->
  forall i st, Inv st -> Inv (forRange body i l st).
Proof.
  intros Hstep. induction l as [|x l IH]; intros i st Hst; simpl; auto.
Qed.
End ForRange.

(** ** The first pass *)
Section Resolver.
Variable RetrieveName : nat -> ManagedObjectReference -> option string.

Lemma memo_inv_init : memo_inv {| names := ∅; calls := [] |}.
Proof. intros v. exists 0%nat. simpl. by rewrite lookup_empty. Qed.

Lemma callsFor_snoc v cs c :
  callsFor v (cs ++ [c])
  = (callsFor v cs ++ (if decide (moValue c.1 = v) then [c] else []))%list.
Proof.
  unfold callsFor. rewrite filter_app, filter_cons, filter_nil.
  by destruct (decide _).
Qed.

Lemma replicate_snoc {B} k (x : B) :
  (replicate k x ++ [x])%list = replicate (S k) x.
Proof. induction k; simpl in *; congruence. Qed.

Lemma memo_inv_step i h st : memo_inv st -> memo_inv (resolveHost RetrieveName i h st).
Proof.
  intros Hinv. unfold resolveHost.
  destruct (Parent h) as [p|]; [|done].
  destruct (names st !! moValue p) as [n|] eqn:Hmemo; [done|].
  destruct (RetrieveName i p) as [name|]; intros v;
    destruct (Hinv v) as [k Hk]; simpl; rewrite callsFor_snoc, fmap_app, Hk;
    simpl; destruct (decide (moValue p = v)) as [<-|Hne]; simpl.
  - exists k. rewrite Hmemo, lookup_insert_eq. simpl. by rewrite app_nil_r.
  - exists k. rewrite lookup_insert_ne by done. by rewrite app_nil_r.
  - exists (S k). rewrite Hmemo. simpl.
    by rewrite !app_nil_r, replicate_snoc.
  - exists k. by rewrite app_nil_r.
Qed.

Lemma memo_inv_resolve hosts : memo_inv (resolve RetrieveName hosts).
Proof.
  unfold resolve. apply forRange_invariant.
  - intros. by apply memo_inv_step.
  - apply memo_inv_init.
Qed.

(** Once the name is kept, no lookup is made for the back-reference. *)
Lemma resolved_stays_quiet hosts : forall i st v n,
  names st !! v = Some n ->
  callsFor v (calls (forRange (resolveHost RetrieveName) i hosts st))
  = callsFor v (calls st).
Proof.
  induction hosts as [|h hosts IH]; intros i st v n Hv; simpl; [done|].
  unfold resolveHost at 2.
  destruct (Parent h) as [p|]; [|by eapply IH].
  destruct (names st !! moValue p) as [n'|] eqn:Hmemo; [by eapply IH|].
  assert (Hne : moValue p <> v) by congruence.
  destruct (RetrieveName i p) as [name|].
  - erewrite IH by (simpl; by rewrite lookup_insert_ne).
    simpl. rewrite callsFor_snoc. simpl.
    rewrite decide_False by done. by rewrite app_nil_r.
  - erewrite IH by (simpl; done).
    simpl. rewrite callsFor_snoc. simpl.
    rewrite decide_False by done. by rewrite app_nil_r.
Qed.

(** While the name is missing, every host sharing the back-reference
    triggers a lookup. *)
Lemma unresolved_keeps_trying hosts : forall i st v,
  names st !! v = None ->
  callsFor v (calls (forRange (resolveHost RetrieveName) i hosts st))
  = (callsFor v (calls st) ++ attempts RetrieveName i hosts v)%list.
Proof.
  induction hosts as [|h hosts IH]; intros i st v Hv; simpl;
    [by rewrite app_nil_r|].
  unfold resolveHost at 2.
  destruct (Parent h) as [p|]; [|by apply IH].
  destruct (decide (moValue p = v)) as [Heq|Hne].
  - rewrite Heq, Hv.
    destruct (RetrieveName i p) as [name|].
    + erewrite resolved_stays_quiet by (simpl; apply lookup_insert_eq).
      simpl. rewrite callsFor_snoc. simpl. by rewrite decide_True by done.
    + rewrite IH by done. simpl. rewrite callsFor_snoc. simpl.
      rewrite decide_True by done. by rewrite <- app_assoc.
  - destruct (names st !! moValue p) as [n'|] eqn:Hmemo; [by apply IH|].
    destruct (RetrieveName i p) as [name|].
    + rewrite IH by (simpl; by rewrite lookup_insert_ne).
      simpl. rewrite callsFor_snoc. simpl.
      rewrite decide_False by done. by rewrite app_nil_r.
    + rewrite IH by done. simpl. rewrite callsFor_snoc. simpl.
      rewrite decide_False by done. by rewrite app_nil_r.
Qed.

(** When every lookup fails, each host sharing the back-reference makes
    one. *)
Lemma attempts_all_fail hosts : forall i v,
  all_lookups_fail RetrieveName i hosts v ->
  length (attempts RetrieveName i hosts v) = length (filter (shares v) hosts).
Proof.
  induction hosts as [|h hosts IH]; intros i v Hall; simpl; [done|].
  assert (Htl : all_lookups_fail RetrieveName (S i) hosts v).
  { intros j hj p Hj Hp Hval.
    rewrite <- (Hall (S j) hj p Hj Hp Hval). f_equal. lia. }
  destruct (Parent h) as [p|] eqn:Hp.
  - destruct (decide (moValue p = v)) as [Heq|Hne].
    + rewrite filter_cons_True by (unfold shares; by rewrite Hp).
      pose proof (Hall 0%nat h p eq_refl Hp Heq) as Hfail.
      rewrite Nat.add_0_r in Hfail. rewrite Hfail. simpl. f_equal.
      by apply IH.
    + rewrite filter_cons_False by (unfold shares; by rewrite Hp).
      by apply IH.
  - rewrite filter_cons_False by (unfold shares; rewrite Hp; tauto).
    by apply IH.
Qed.

(** C1, amended: a group back-reference is requested again only after a
    failed attempt.  The lookups made for one back-reference are exactly
    those of the hosts sharing it, in host order, up to and including the
    first that succeeds: a failed attempt is not memoized and the next host
    sharing the back-reference triggers a new call, so that when every
    lookup fails each of these hosts makes one.  Their outcomes are some
    failures followed by exactly one success when the name ends up in
    [parentNames] and by nothing otherwise; a back-reference none of whose
    attempts fails is requested at most once. *)
Theorem C1_resolved_once_unless_failed (hosts : list HostSystem) (v : string) :
  let cs := callsFor v (calls (resolve RetrieveName hosts)) in
  cs = attempts RetrieveName 0 hosts v
  /\ (all_lookups_fail RetrieveName 0 hosts v ->
      length cs = length (filter (shares v) hosts))
  /\ (exists k,
        (snd <$> cs)
        = (replicate k None
             ++ option_list (Some <$> parentNames RetrieveName hosts !! v))%list)
  /\ ((forall c, c ∈ cs -> is_Some c.2) -> (length cs <= 1)%nat).
Proof.
  intros cs.
  assert (Hcs : cs = attempts RetrieveName 0 hosts v).
  { unfold cs, resolve. by rewrite unresolved_keeps_trying. }
  split; [done|]. split.
  { intros Hall. rewrite Hcs. by apply attempts_all_fail. }
  destruct (memo_inv_resolve hosts v) as [k Hk]. fold cs in Hk.
  split; [by exists k|].
  intros Hok.
  destruct k as [|k].
  - apply (f_equal length) in Hk. rewrite length_fmap in Hk. rewrite Hk.
    simpl. destruct (names _ !! v); simpl; lia.
  - exfalso. destruct cs as [|c cs']; [done|].
    simpl in Hk. injection Hk as Hc _.
    destruct (Hok c) as [x Hx]; [left|]. congruence.
Qed.
End Resolver.

(** ** Disk accounting *)
Section Accounting.
Import Int IntFacts.

Lemma int64_0 : int64 0 = 0.
Proof. reflexivity. Qed.

Lemma foldl_diskBytes ds c :
  foldl (fun c d => add64 c (diskBytes d)) (int64 c) ds
  = int64 (c + sumZ rawBytes ds).
Proof.
  revert c. induction ds as [|d ds IH]; intros c; simpl.
  - by rewrite Z.add_0_r.
  - unfold diskBytes, mul64. rewrite add64_wrap, IH.
    unfold rawBytes. f_equal. lia.
Qed.

Lemma foldl_osaGroup groups t c :
  foldl osaGroup (t, int64 c) groups
  = (t + groupDisks groups, int64 (c + groupBytes groups)).
Proof.
  revert t c. induction groups as [|dm groups IH]; intros t c; simpl.
  - by rewrite !Z.add_0_r.
  - unfold osaGroup at 2. simpl. rewrite foldl_diskBytes, IH.
    unfold groupDisks, groupBytes. simpl. f_equal; [lia | f_equal; lia].
Qed.

Lemma foldl_esaDisk res t c :
  foldl esaDisk (t, int64 c) res
  = (t + Z.of_nat (length (filter inUse res)),
     int64 (c + sumZ (fun dr => rawBytes (Disk dr)) (filter inUse res))).
Proof.
  revert t c. induction res as [|dr res IH]; intros t c; simpl.
  - by rewrite !Z.add_0_r.
  - destruct (inUse dr) eqn:Huse.
    + rewrite filter_cons_True by (by rewrite Huse).
      unfold esaDisk at 2. rewrite Huse. simpl.
      unfold diskBytes, mul64. rewrite add64_wrap, IH.
      unfold rawBytes. simpl. f_equal; [lia|]. by rewrite Z.add_assoc.
    + rewrite filter_cons_False by (rewrite Huse; simpl; tauto).
      unfold esaDisk at 2. rewrite Huse. apply IH.
Qed.

Lemma int64_id z : in_range 64 z -> int64 z = z.
Proof. apply wrap_id. lia. Qed.

Lemma osa_totals groups :
  foldl osaGroup (0, 0) groups = (groupDisks groups, int64 (groupBytes groups)).
Proof. change (0, 0) with (0, int64 0). by rewrite foldl_osaGroup. Qed.

Lemma esa_totals res :
  foldl esaDisk (0, 0) res
  = (Z.of_nat (length (filter inUse res)),
     int64 (sumZ (fun dr => rawBytes (Disk dr)) (filter inUse res))).
Proof. change (0, 0) with (0, int64 0). by rewrite foldl_esaDisk. Qed.

End Accounting.

(** ** The third pass, host by host *)
Section Storage.
Variable RetrieveVsan : nat -> ManagedObjectReference -> option HostVsanSystem.
Variable QueryDisksForVsan :
  nat -> ManagedObjectReference -> option (list VsanHostDiskResult).


End Storage.

(** ** The row builder *)
Section Rows.
Import Int IntFacts.

Lemma quot_int16 c s : in_range 16 c -> 0 < s -> int16 (Z.quot c s) = Z.quot c s.
Proof.
  intros Hc Hs. apply wrap_id; [lia|].
  unfold in_range in *.
  destruct (Z.le_gt_cases 0 c) as [Hpos|Hneg].
  - rewrite Z.quot_div_nonneg by lia.
    pose proof (Z.div_pos c s Hpos Hs).
    assert (c / s <= c) by (apply Z.div_le_upper_bound; nia). lia.
  - replace c with (- (- c)) by lia. rewrite Z.quot_opp_l by lia.
    rewrite Z.quot_div_nonneg by lia.
    assert (0 <= - c / s) by (apply Z.div_pos; lia).
    assert (- c / s <= - c) by (apply Z.div_le_upper_bound; nia). lia.
Qed.

(** The guard [sockets > 0] keeps the division away from a zero divisor. *)
Lemma coresPerSocket_total sockets totalCores :
  coresPerSocket sockets totalCores
  = Some (if 0 <? sockets then int16 (Z.quot totalCores sockets) else 0).
Proof.
  unfold coresPerSocket, quo16.
  destruct (0 <? sockets) eqn:Hs; [|done].
  destruct (sockets =? 0) eqn:Hz; [lia|done].
Qed.

Lemma cpuFields_total h :
  exists sockets totalCores cps memoryGB,
    cpuFields h = Some (sockets, totalCores, cps, memoryGB)
    /\ (cpuInfo_int16 h -> cps = coresPerSocketOf h).
Proof.
  unfold cpuFields, coresPerSocketOf, cpuInfo_int16.
  destruct (Hardware h) as [hw|]; [|by exists 0, 0, 0, 0].
  rewrite coresPerSocket_total. simpl.
  do 4 eexists. split; [reflexivity|].
  intros Hwf. destruct (Hwf hw eq_refl) as [_ Hcores].
  destruct (0 <? NumCpuPackages (CpuInfo hw)) eqn:Hs; [|done].
  apply quot_int16; [done|lia].
Qed.

Section WithMaps.
Variable anonymize : bool.
Variables pn ac : gmap string string.
Variable vi : gmap string vsanHostInfo.

(** Shape of a record: no record is ever missing, whatever the host lacks. *)
Lemma writeRow_total i h :
  exists row,
    writeRow anonymize pn ac vi i h = Some row
    /\ length row = 13%nat
    /\ row !! col_Cluster
       = Some (match Parent h with
               | None => ""
               | Some p =>
                   let cluster := mapIndex "" pn (moValue p) in
                   if anonymize then mapIndex "" ac cluster else cluster
               end)
    /\ (cpuInfo_int16 h ->
        row !! col_CoresPerSocket = Some (Itoa (coresPerSocketOf h)))
    /\ storageColumns row = renderInfo (mapIndex zeroInfo vi (hostName h)).
Proof.
  destruct (cpuFields_total h) as (s & c & cps & mem & Hcpu & Hcps).
  unfold writeRow. rewrite Hcpu. simpl.
  eexists. split; [reflexivity|]. repeat split.
  intros Hwf. simpl. by rewrite Hcps.
Qed.

Lemma writeRows_total hosts : forall i,
  exists rows,
    writeRows anonymize pn ac vi i hosts = Some rows
    /\ length rows = length hosts
    /\ forall j h, hosts !! j = Some h ->
         writeRow anonymize pn ac vi (i + j) h = rows !! j.
Proof.
  induction hosts as [|h hosts IH]; intros i; simpl.
  - exists []. by repeat split.
  - destruct (writeRow_total i h) as (row & Hrow & _).
    destruct (IH (S i)) as (rows & Hrows & Hlen & Hlook).
    rewrite Hrow, Hrows. simpl. exists (row :: rows).
    split; [done|]. split; [simpl; congruence|].
    intros [|j] h' Hj; simpl in *.
    + injection Hj as <-. by rewrite Nat.add_0_r.
    + rewrite <- (Hlook j h' Hj). f_equal. lia.
Qed.
End WithMaps.

End Rows.

(** ** The whole run *)
Section Run.
Variable RetrieveName : nat -> ManagedObjectReference -> option string.
Variable RetrieveVsan : nat -> ManagedObjectReference -> option HostVsanSystem.
Variable QueryDisksForVsan :
  nat -> ManagedObjectReference -> option (list VsanHostDiskResult).

(** Hosts of one name that store nothing leave the entry of that name as it
    was. *)
Lemma vsanInfo_unchanged hosts : forall i m n,
  (forall j h, hosts !! j = Some h -> hostName h = n ->
     hostVsanInfo RetrieveVsan QueryDisksForVsan (i + j) h = None) ->
  forRange (vsanHost RetrieveVsan QueryDisksForVsan) i hosts m !! n = m !! n.
Proof.
  induction hosts as [|h hosts IH]; intros i m n Hnone; simpl; [done|].
  rewrite IH.
  - unfold vsanHost.
    destruct (hostVsanInfo _ _ i h) as [info|] eqn:Hinfo; [|done].
    destruct (decide (hostName h = n)) as [Heq|Hne].
    + specialize (Hnone 0%nat h eq_refl Heq).
      rewrite Nat.add_0_r in Hnone. congruence.
    + by rewrite lookup_insert_ne.
  - intros j h' Hj Hn. rewrite <- (Hnone (S j) h' Hj Hn). f_equal. lia.
Qed.

(** The entry of a name is what the last host of that name stored. *)
Lemma vsanInfo_last_store hosts : forall i m j hj info,
  hosts !! j = Some hj ->
  hostVsanInfo RetrieveVsan QueryDisksForVsan (i + j) hj = Some info ->
  (forall k hk, (j < k)%nat -> hosts !! k = Some hk ->
     hostName hk = hostName hj ->
     hostVsanInfo RetrieveVsan QueryDisksForVsan (i + k) hk = None) ->
  forRange (vsanHost RetrieveVsan QueryDisksForVsan) i hosts m !! hostName hj
  = Some info.
Proof.
  induction hosts as [|h hosts IH]; intros i m j hj info Hj Hinfo Hlater;
    [done|].
  destruct j as [|j]; simpl in *.
  - injection Hj as ->. rewrite Nat.add_0_r in Hinfo.
    rewrite vsanInfo_unchanged.
    + unfold vsanHost. rewrite Hinfo. apply lookup_insert_eq.
    + intros k hk Hk Hn. rewrite <- (Hlater (S k) hk); auto with lia.
      f_equal. lia.
  - apply (IH (S i) _ j hj info Hj).
    + rewrite <- Hinfo. f_equal. lia.
    + intros k hk Hlt Hk Hn. rewrite <- (Hlater (S k) hk); auto with lia.
      f_equal. lia.
Qed.

(** Every run produces one record per host, in host order, built by
    [writeRow] from the three maps. *)
Lemma main_rows anonymize hosts :
  exists rows,
    main RetrieveName RetrieveVsan QueryDisksForVsan anonymize hosts = Some rows
    /\ length rows = length hosts
    /\ forall j h, hosts !! j = Some h ->
         writeRow anonymize (parentNames RetrieveName hosts)
           (anonClusters anonymize hosts (parentNames RetrieveName hosts))
           (vsanInfo RetrieveVsan QueryDisksForVsan hosts) j h
         = rows !! j.
Proof.
  unfold main.
  destruct (writeRows_total anonymize (parentNames RetrieveName hosts)
              (anonClusters anonymize hosts (parentNames RetrieveName hosts))
              (vsanInfo RetrieveVsan QueryDisksForVsan hosts) hosts 0%nat)
    as (rows & Hrows & Hlen & Hlook).
  exists rows. repeat split; auto.
Qed.

(** C7: the "Cores per Socket" column is the truncated quotient of the core
    count by the socket count when the socket count is positive and 0
    otherwise (socket count 0, or no hardware data); the record is always
    produced, so no division by zero takes place. *)
Theorem C7_cores_per_socket_guarded (anonymize : bool)
    (hosts : list HostSystem) (i : nat) (h : HostSystem) :
  hosts !! i = Some h ->
  cpuInfo_int16 h ->
  (forall sockets totalCores, is_Some (coresPerSocket sockets totalCores))
  /\ exists rows row,
       main RetrieveName RetrieveVsan QueryDisksForVsan anonymize hosts = Some rows
       /\ rows !! i = Some row
       /\ row !! col_CoresPerSocket
          = Some (Itoa (match Hardware h with
                        | None => 0
                        | Some hw =>
                            let sockets := NumCpuPackages (CpuInfo hw) in
                            let totalCores := NumCpuCores (CpuInfo hw) in
                            if 0 <? sockets then Z.quot totalCores sockets
                            else 0
                        end)).
Proof.
  intros Hi Hwf. split.
  - intros s c. rewrite coresPerSocket_total. eauto.
  - destruct (main_rows anonymize hosts) as (rows & Hmain & _ & Hlook).
    specialize (Hlook i h Hi).
    destruct (writeRow_total anonymize (parentNames RetrieveName hosts)
                (anonClusters anonymize hosts (parentNames RetrieveName hosts))
                (vsanInfo RetrieveVsan QueryDisksForVsan hosts) i h)
      as (row & Hrow & _ & _ & Hcps & _).
    exists rows, row. split; [done|]. split; [congruence|].
    apply (Hcps Hwf).
Qed.


(** C10, amended: storage facts are joined to records by display name, and
    an entry is overwritten only by a host that stores facts.  Every record
    bearing a name carries the facts of the last host of that name whose
    iteration reached the assignment; hosts that skip the iteration (no
    reference, failed fetch, no disk group) overwrite nothing. *)
Theorem C10_facts_joined_by_name (anonymize : bool) (hosts : list HostSystem)
    (i j : nat) (hi hj : HostSystem) (info : vsanHostInfo) :
  hosts !! i = Some hi ->
  hosts !! j = Some hj ->
  hostName hi = hostName hj ->
  hostVsanInfo RetrieveVsan QueryDisksForVsan j hj = Some info ->
  (forall k hk, (j < k)%nat -> hosts !! k = Some hk ->
     hostName hk = hostName hj ->
     hostVsanInfo RetrieveVsan QueryDisksForVsan k hk = None) ->
  vsanInfo RetrieveVsan QueryDisksForVsan hosts !! hostName hj = Some info
  /\ exists rows row,
       main RetrieveName RetrieveVsan QueryDisksForVsan anonymize hosts = Some rows
       /\ rows !! i = Some row
       /\ storageColumns row = renderInfo info.
Proof.
  intros Hi Hj Hname Hinfo Hlater.
  assert (Hlast : vsanInfo RetrieveVsan QueryDisksForVsan hosts !! hostName hj
                  = Some info).
  { unfold vsanInfo. by apply (vsanInfo_last_store hosts 0%nat ∅ j hj info). }
  split; [done|].
  destruct (main_rows anonymize hosts) as (rows & Hmain & _ & Hlook).
  specialize (Hlook i hi Hi).
  destruct (writeRow_total anonymize (parentNames RetrieveName hosts)
              (anonClusters anonymize hosts (parentNames RetrieveName hosts))
              (vsanInfo RetrieveVsan QueryDisksForVsan hosts) i hi)
    as (row & Hrow & _ & _ & _ & Hst).
  exists rows, row. split; [done|]. split; [congruence|].
  rewrite Hst. unfold mapIndex. by rewrite Hname, Hlast.
Qed.

End Run.

(** ** The second pass *)
Section Anonymize.
Variable pn : gmap string string.

Lemma encounter_NoDup seen x : NoDup seen -> NoDup (encounter seen x).
Proof.
  intros Hnd. unfold encounter. destruct (decide (x ∈ seen)); [done|].
  apply NoDup_app. split; [done|]. split.
  - intros y Hy Hyx. apply list_elem_of_singleton in Hyx. by subst.
  - apply NoDup_singleton.
Qed.

Lemma firstEncounters_from seen l :
  NoDup seen ->
  NoDup (foldl encounter seen l)
  /\ forall x, x ∈ foldl encounter seen l <-> x ∈ seen \/ x ∈ l.
Proof.
  revert seen. induction l as [|y l IH]; intros seen Hnd; simpl.
  - split; [done|]. intros x. rewrite elem_of_nil. tauto.
  - destruct (IH (encounter seen y) (encounter_NoDup seen y Hnd)) as [H1 H2].
    split; [done|]. intros x. rewrite H2, elem_of_cons.
    unfold encounter. destruct (decide (y ∈ seen)) as [Hin|Hout].
    + split; [tauto|]. intros [?|[->|?]]; tauto.
    + rewrite elem_of_app, list_elem_of_singleton. tauto.
Qed.

Lemma anon_inv_init : anon_inv {| labels := ∅; idx := 0 |} [].
Proof.
  split; [done|]. split; [apply NoDup_nil_2|].
  intros name l. simpl. rewrite lookup_empty. split; [done|].
  by intros (k & Hk & _).
Qed.

Lemma anon_inv_fresh st seen name :
  anon_inv st seen -> labels st !! name = None -> name ∉ seen.
Proof.
  intros (_ & _ & Hl) Hnone Hin.
  apply list_elem_of_lookup in Hin as [k Hk].
  assert (labels st !! name = Some (clusterLabel k)) as Hsome
    by (apply Hl; eauto).
  congruence.
Qed.

Lemma anon_inv_known st seen name l :
  anon_inv st seen -> labels st !! name = Some l -> name ∈ seen.
Proof.
  intros (_ & _ & Hl) Hsome. apply Hl in Hsome as (k & Hk & _).
  apply list_elem_of_lookup. eauto.
Qed.

Lemma anon_inv_step i h st seen :
  anon_inv st seen ->
  anon_inv (anonHost pn i h st)
    (match realNameOf pn h with
     | Some x => encounter seen x
     | None => seen
     end).
Proof.
  intros Hinv. unfold anonHost, realNameOf.
  destruct (Parent h) as [p|]; simpl; [|done].
  set (name := mapIndex "" pn (moValue p)).
  unfold encounter.
  destruct (labels st !! name) as [l|] eqn:Hlook.
  - rewrite decide_True by (by eapply anon_inv_known). done.
  - pose proof (anon_inv_fresh st seen name Hinv Hlook) as Hfresh.
    rewrite decide_False by done.
    destruct Hinv as (Hidx & Hnd & Hl).
    split; [|split].
    + simpl. rewrite length_app. simpl. lia.
    + apply NoDup_app. split; [done|]. split; [|apply NoDup_singleton].
      intros y Hy Hyx. apply list_elem_of_singleton in Hyx. by subst.
    + intros n l. simpl. destruct (decide (name = n)) as [<-|Hne].
      * rewrite lookup_insert_eq. split.
        -- intros [= <-]. exists (length seen). split.
           ++ by rewrite lookup_app_r, Nat.sub_diag.
           ++ unfold clusterLabel. by rewrite Hidx.
        -- intros (k & Hk & ->).
           apply lookup_app_Some in Hk as [Hk|[Hlen Hk]].
           ++ exfalso. apply Hfresh. apply list_elem_of_lookup. eauto.
           ++ apply list_lookup_singleton_Some in Hk as [Hk _].
              unfold clusterLabel. rewrite Hidx. do 3 f_equal. lia.
      * rewrite lookup_insert_ne by done. rewrite Hl. split.
        -- intros (k & Hk & ->). exists k. split; [|done].
           by apply lookup_app_l_Some.
        -- intros (k & Hk & ->). exists k. split; [|done].
           apply lookup_app_Some in Hk as [Hk|[Hlen Hk]]; [done|].
           apply list_lookup_singleton_Some in Hk as [_ Hk]. congruence.
Qed.

Lemma anon_inv_loop hosts : forall i st seen,
  anon_inv st seen ->
  anon_inv (forRange (anonHost pn) i hosts st)
    (foldl encounter seen (realNames pn hosts)).
Proof.
  induction hosts as [|h hosts IH]; intros i st seen Hinv; simpl; [done|].
  pose proof (anon_inv_step i h st seen Hinv) as Hstep.
  unfold realNames. simpl. fold (realNames pn hosts).
  destruct (realNameOf pn h) as [x|]; simpl; by apply IH.
Qed.

(** The second pass computes the labels of the first-encounter order. *)
Lemma anonClusters_labels hosts name l :
  anonClusters true hosts pn !! name = Some l
  <-> exists k, firstEncounters (realNames pn hosts) !! k = Some name
                /\ l = clusterLabel k.
Proof.
  unfold anonClusters, firstEncounters.
  destruct (anon_inv_loop hosts 0%nat _ _ anon_inv_init) as (_ & _ & Hl).
  apply Hl.
Qed.

Lemma clusterLabel_inj k1 k2 : clusterLabel k1 = clusterLabel k2 -> k1 = k2.
Proof.
  unfold clusterLabel. intros H.
  apply (inj (String.append "Cluster ")) in H. apply Itoa_inj in H. lia.
Qed.

(** C6: under anonymisation the label of a real group name depends only on
    the position of its first occurrence in host order: the k-th distinct
    name met gets "Cluster k", counting from 1; every name met has exactly
    one label, and two names with one label are the same name. *)
Theorem C6_labels_first_encounter_injective (hosts : list HostSystem) :
  let m := anonClusters true hosts pn in
  let order := firstEncounters (realNames pn hosts) in
  NoDup order
  /\ (forall name, name ∈ order <-> name ∈ realNames pn hosts)
  /\ (forall name l,
        m !! name = Some l
        <-> exists k, order !! k = Some name
                      /\ l = "Cluster " +:+ Itoa (Z.of_nat k + 1))
  /\ (forall n1 n2 l, m !! n1 = Some l -> m !! n2 = Some l -> n1 = n2).
Proof.
  intros m order.
  destruct (firstEncounters_from [] (realNames pn hosts) NoDup_nil_2)
    as [Hnd Hmem].
  split; [done|]. split.
  { intros name. unfold order, firstEncounters. rewrite Hmem, elem_of_nil. tauto. }
  split; [apply anonClusters_labels|].
  intros n1 n2 l H1 H2.
  apply anonClusters_labels in H1 as (k1 & Hk1 & ->).
  apply anonClusters_labels in H2 as (k2 & Hk2 & Heq).
  apply clusterLabel_inj in Heq as ->. congruence.
Qed.

End Anonymize.

(** ** Unresolved group names *)
Section Unresolved.
Variable RetrieveName : nat -> ManagedObjectReference -> option string.
Variable RetrieveVsan : nat -> ManagedObjectReference -> option HostVsanSystem.
Variable QueryDisksForVsan :
  nat -> ManagedObjectReference -> option (list VsanHostDiskResult).

(** The empty name is met by the second pass as soon as one host has a
    parent whose name is missing from [parentNames]. *)
Lemma unresolved_gets_label pn hosts i h p :
  hosts !! i = Some h ->
  Parent h = Some p ->
  pn !! moValue p = None ->
  exists k, anonClusters true hosts pn !! "" = Some (clusterLabel k).
Proof.
  intros Hi Hp Hnone.
  assert (Hin : "" ∈ firstEncounters (realNames pn hosts)).
  { destruct (firstEncounters_from [] (realNames pn hosts) NoDup_nil_2)
      as [_ Hmem].
    apply Hmem. right. apply list_elem_of_omap. exists h. split.
    - apply list_elem_of_lookup. eauto.
    - unfold realNameOf, mapIndex. rewrite Hp. simpl. by rewrite Hnone. }
  apply list_elem_of_lookup in Hin as [k Hk].
  exists k. apply anonClusters_labels. eauto.
Qed.

(** C2, amended: a failed group resolution never stops the run, which still
    writes one record per host.  For a host whose parent has no entry in
    [parentNames], the Cluster column is empty in normal mode; in anonymised
    mode it is the synthetic label the second pass assigns to the empty
    name, "Cluster k" with k at least 1, the same for all such hosts. *)
Theorem C2_unresolved_group_column (anonymize : bool)
    (hosts : list HostSystem) (i : nat) (h : HostSystem)
    (p : ManagedObjectReference) :
  hosts !! i = Some h ->
  Parent h = Some p ->
  parentNames RetrieveName hosts !! moValue p = None ->
  exists rows row,
    main RetrieveName RetrieveVsan QueryDisksForVsan anonymize hosts = Some rows
    /\ length rows = length hosts
    /\ rows !! i = Some row
    /\ if anonymize
       then exists k,
              1 <= k
              /\ anonClusters true hosts (parentNames RetrieveName hosts) !! ""
                 = Some ("Cluster " +:+ Itoa k)
              /\ row !! col_Cluster = Some ("Cluster " +:+ Itoa k)
       else row !! col_Cluster = Some "".
Proof.
  intros Hi Hp Hnone.
  destruct (main_rows RetrieveName RetrieveVsan QueryDisksForVsan anonymize hosts)
    as (rows & Hmain & Hlen & Hlook).
  specialize (Hlook i h Hi).
  destruct (writeRow_total anonymize (parentNames RetrieveName hosts)
              (anonClusters anonymize hosts (parentNames RetrieveName hosts))
              (vsanInfo RetrieveVsan QueryDisksForVsan hosts) i h)
    as (row & Hrow & _ & Hcl & _).
  exists rows, row. split; [done|]. split; [done|]. split; [congruence|].
  rewrite Hcl, Hp. cbv zeta. unfold mapIndex. rewrite Hnone. simpl.
  destruct anonymize; [|done].
  destruct (unresolved_gets_label _ hosts i h p Hi Hp Hnone) as [k Hk].
  exists (Z.of_nat k + 1). split; [lia|]. split; [exact Hk|].
  by rewrite Hk.
Qed.

End Unresolved.

(** ** Capacity in TiB and its rendering *)
Section Capacity.
Import Float64.

Lemma round_half_even_spec n d :
  0 <= n -> 0 < d ->
  let t := round_half_even n d in
  n / d <= t
  /\ 2 * Z.abs (n - t * d) <= d
  /\ (2 * Z.abs (n - t * d) = d -> Z.even t = true).
Proof.
  intros Hn Hd. unfold round_half_even.
  pose proof (Z.div_mod n d) as Hdm.
  pose proof (Z.mod_pos_bound n d Hd) as Hr.
  set (q := n / d) in *. set (r := n mod d) in *.
  assert (Hn' : n = d * q + r) by lia. clearbody q r. subst n.
  destruct (2 * r <? d) eqn:H1; [|destruct (d <? 2 * r) eqn:H2;
    [|destruct (Z.even q) eqn:H3]]; simpl.
  - split; [lia|]. split; [lia|]. intros. lia.
  - split; [lia|]. split; [lia|]. intros. lia.
  - split; [lia|]. split; [lia|]. intros. done.
  - split; [lia|]. split; [lia|]. intros _.
    rewrite Z.add_1_r, Z.even_succ, <- Z.negb_even, H3. done.
Qed.

Lemma toQ_nonneg_exp n e : 0 <= e -> (toQ (mk n e) == inject_Z (n * 2 ^ e))%Q.
Proof.
  intros He. unfold toQ. simpl.
  by rewrite inject_Z_mult, (Zpower_Qpower 2 e He).
Qed.

Lemma toQ_neg_exp n e p :
  e < 0 -> 2 ^ (- e) = Z.pos p -> (toQ (mk n e) == n # p)%Q.
Proof.
  intros He Hp. unfold toQ. simpl.
  replace e with (- - e) by lia.
  rewrite Qpower_opp, <- (Zpower_Qpower 2 (- e)) by lia. rewrite Hp.
  unfold Qeq. simpl. lia.
Qed.

Lemma tenths_nearest x :
  0 <= tenths x
  /\ (Qabs (10 * Qabs (toQ x) - inject_Z (tenths x)) <= 1 # 2)%Q
  /\ ((Qabs (10 * Qabs (toQ x) - inject_Z (tenths x)) == 1 # 2)%Q ->
      Z.even (tenths x) = true).
Proof.
  destruct x as [n e]. unfold tenths. simpl fnum. simpl fexp.
  destruct (0 <=? e) eqn:He.
  - assert (0 <= 2 ^ e) by (apply Z.pow_nonneg; lia).
    rewrite toQ_nonneg_exp by lia.
    assert (Hz : (Qabs (10 * Qabs (inject_Z (n * 2 ^ e))
                        - inject_Z (10 * Z.abs n * 2 ^ e)) == 0)%Q).
    { unfold Qabs, Qeq, Qmult, Qminus, Qplus, Qopp, inject_Z. simpl.
      rewrite Z.abs_mul. lia. }
    rewrite Hz. split; [lia|]. split; [done|]. intros Hc. done.
  - assert (Hpos : 0 < 2 ^ (- e)) by (apply Z.pow_pos_nonneg; lia).
    destruct (2 ^ (- e)) as [|p|p] eqn:Hp; try lia.
    rewrite (toQ_neg_exp n e p) by lia.
    destruct (round_half_even_spec (10 * Z.abs n) (Z.pos p))
      as (Hq & Hnear & Htie); [lia|lia|].
    assert (0 <= 10 * Z.abs n / Z.pos p) by (apply Z.div_pos; lia).
    set (t := round_half_even (10 * Z.abs n) (Z.pos p)) in *.
    split; [lia|].
    unfold Qabs, Qle, Qeq, Qmult, Qminus, Qplus, Qopp, inject_Z. simpl.
    rewrite !Pos.mul_1_r. split; [lia|]. intros Heq. apply Htie. lia.
Qed.

Lemma of_int64_sign b : (fnum (of_int64 b) <? 0) = (b <? 0).
Proof.
  unfold of_int64. destruct (Z.abs b <? 2 ^ 53) eqn:Hsmall; [done|]. simpl.
  assert (Ha : 2 ^ 53 <= Z.abs b) by lia.
  assert (Hlog : 53 <= Z.log2 (Z.abs b)).
  { rewrite <- (Z.log2_pow2 53) by lia. by apply Z.log2_le_mono. }
  destruct (Z.log2_spec (Z.abs b)) as [Hlo _]; [lia|].
  assert (Hle : 2 ^ (Z.log2 (Z.abs b) - 52) <= 2 ^ Z.log2 (Z.abs b))
    by (apply Z.pow_le_mono_r; lia).
  assert (Hd : 0 < 2 ^ (Z.log2 (Z.abs b) - 52)) by (apply Z.pow_pos_nonneg; lia).
  destruct (round_half_even_spec (Z.abs b) (2 ^ (Z.log2 (Z.abs b) - 52)))
    as (Hq & _); [lia|lia|].
  assert (0 < Z.abs b / 2 ^ (Z.log2 (Z.abs b) - 52))
    by (apply Z.div_str_pos; lia).
  set (t := round_half_even _ _) in *.
  destruct (b <? 0) eqn:Hb.
  - apply Z.ltb_lt. nia.
  - apply Z.ltb_ge. nia.
Qed.

(** Below 2^53 the conversion to [float64] is exact. *)
Lemma toTiB_small b : Z.abs b < 2 ^ 53 -> toTiB b = mk b (-40).
Proof.
  intros Hb. unfold toTiB, of_int64.
  destruct (Z.abs b <? 2 ^ 53) eqn:E; [reflexivity|lia].
Qed.

Lemma toQ_TiB b : (toQ (mk b (-40)) == inject_Z b / inject_Z (1024 ^ 4))%Q.
Proof.
  rewrite (toQ_neg_exp b (-40) 1099511627776) by done.
  unfold Qeq. simpl. lia.
Qed.

(** C3, amended: the stored capacity is the [float64] conversion of the byte
    count divided by 1024^4, which is exactly the byte count divided by
    1024^4 for a count below 2^53; the capacity column shows the stored
    value rounded to the nearest tenth, a tie going to the even tenth.  It
    is not truncated. *)
Theorem C3_capacity_exact_and_rounded (capacityBytes : Z) :
  let v := toQ (toTiB capacityBytes) in
  let t := tenths (toTiB capacityBytes) in
  (Z.abs capacityBytes < 2 ^ 53 ->
   (v == inject_Z capacityBytes / inject_Z (1024 ^ 4))%Q)
  /\ Sprintf_1f (toTiB capacityBytes)
     = (if capacityBytes <? 0 then "-" else "")
         +:+ Itoa (t / 10) +:+ "." +:+ Itoa (t mod 10)
  /\ 0 <= t
  /\ (Qabs (10 * Qabs v - inject_Z t) <= 1 # 2)%Q
  /\ ((Qabs (10 * Qabs v - inject_Z t) == 1 # 2)%Q -> Z.even t = true).
Proof.
  intros v t. split.
  - intros Hb. unfold v. rewrite toTiB_small by done. apply toQ_TiB.
  - split; [|apply tenths_nearest].
    unfold Sprintf_1f, render_tenths, toTiB, div_pow2. simpl fnum.
    by rewrite of_int64_sign.
Qed.

End Capacity.

(** ** Disk accounting of a host *)
Section StorageCapacity.
Variable RetrieveVsan : nat -> ManagedObjectReference -> option HostVsanSystem.
Variable QueryDisksForVsan :
  nat -> ManagedObjectReference -> option (list VsanHostDiskResult).

(** The value stored for a byte count below 2^53. *)
Lemma toTiB_value b :
  Z.abs b < 2 ^ 53 ->
  (Float64.toQ (toTiB b) == inject_Z b / inject_Z (1024 ^ 4))%Q.
Proof. intros Hb. rewrite toTiB_small by done. apply toQ_TiB. Qed.

(** C4, amended: under the disk-group architecture with at least one disk
    group, the cache-disk count is the number of disk groups and the
    capacity-disk count the total number of non-SSD disks of the groups.
    The raw capacity is the sum of block size times block count over those
    non-SSD disks reduced to a signed 64-bit integer, which is the sum
    itself whenever the sum fits; the stored capacity is that integer
    converted to [float64] and divided by 1024^4, exactly so below 2^53
    bytes. *)
Theorem C4_osa_disk_accounting (i : nat) (h : HostSystem)
    (vsanRef : ManagedObjectReference) (vsanSys : HostVsanSystem)
    (si : VsanHostConfigInfoStorageInfo) :
  VsanSystem (ConfigManager h) = Some vsanRef ->
  RetrieveVsan i vsanRef = Some vsanSys ->
  isESA vsanSys = false ->
  StorageInfo (Config vsanSys) = Some si ->
  DiskMapping si <> [] ->
  let capacityBytes := Int.int64 (groupBytes (DiskMapping si)) in
  exists info,
    hostVsanInfo RetrieveVsan QueryDisksForVsan i h = Some info
    /\ clusterType info = "OSA"
    /\ cacheDisks info = Z.of_nat (length (DiskMapping si))
    /\ totalDisks info = groupDisks (DiskMapping si)
    /\ capacityTiB info = toTiB capacityBytes
    /\ (Z.abs capacityBytes < 2 ^ 53 ->
        (Float64.toQ (capacityTiB info)
         == inject_Z capacityBytes / inject_Z (1024 ^ 4))%Q)
    /\ (Int.in_range 64 (groupBytes (DiskMapping si)) ->
        capacityBytes = groupBytes (DiskMapping si)).
Proof.
  intros Href Hsys Hesa Hsi Hne capacityBytes.
  unfold hostVsanInfo. rewrite Href, Hsys, Hesa, Hsi.
  destruct (DiskMapping si) as [|dm groups] eqn:Hdm; [done|].
  change (length (dm :: groups) =? 0)%nat with false. cbv iota.
  rewrite osa_totals. cbn [fst snd].
  eexists. split; [reflexivity|]. cbn [clusterType cacheDisks totalDisks capacityTiB].
  split; [done|]. split; [done|]. split; [done|]. split; [done|].
  split; [by apply toTiB_value|]. apply int64_id.
Qed.

(** C5, amended: under the disk-aggregate architecture the cache-disk count
    is 0 and the capacity-disk count is the number of enumerated disks with
    [VsanDiskInfo] populated.  The raw capacity is the sum of block size
    times block count over those disks reduced to a signed 64-bit integer,
    which is the sum itself whenever the sum fits; the stored capacity is
    that integer converted to [float64] and divided by 1024^4, exactly so
    below 2^53 bytes. *)
Theorem C5_esa_disk_accounting (i : nat) (h : HostSystem)
    (vsanRef : ManagedObjectReference) (vsanSys : HostVsanSystem) :
  VsanSystem (ConfigManager h) = Some vsanRef ->
  RetrieveVsan i vsanRef = Some vsanSys ->
  isESA vsanSys = true ->
  exists info,
    hostVsanInfo RetrieveVsan QueryDisksForVsan i h = Some info
    /\ clusterType info = "ESA"
    /\ cacheDisks info = 0
    /\ forall res,
         QueryDisksForVsan i vsanRef = Some res ->
         let used := filter inUse res in
         let bytes := sumZ (fun dr => rawBytes (Disk dr)) used in
         let capacityBytes := Int.int64 bytes in
         totalDisks info = Z.of_nat (length used)
         /\ capacityTiB info = toTiB capacityBytes
         /\ (Z.abs capacityBytes < 2 ^ 53 ->
             (Float64.toQ (capacityTiB info)
              == inject_Z capacityBytes / inject_Z (1024 ^ 4))%Q)
         /\ (Int.in_range 64 bytes -> capacityBytes = bytes).
Proof.
  intros Href Hsys Hesa.
  unfold hostVsanInfo. rewrite Href, Hsys, Hesa.
  eexists. split; [reflexivity|]. cbn [clusterType cacheDisks].
  split; [done|]. split; [done|].
  intros res ->. rewrite esa_totals.
  cbn [fst snd totalDisks capacityTiB].
  split; [done|]. split; [done|].
  split; [by apply toTiB_value|]. apply int64_id.
Qed.

End StorageCapacity.

(** ** The properties on the sample inventory *)

(** Two hosts of one cluster whose name cannot be fetched: the same
    back-reference is requested twice. *)
Lemma C1_retry_after_failure :
  ~ resolved_at_most_once Sample.namesDown [Sample.esx1; Sample.esx2].
Proof.
  intros H. specialize (H "domain-c8").
  assert (E : length (callsFor "domain-c8"
                        (calls (resolve Sample.namesDown
                                  [Sample.esx1; Sample.esx2]))) = 2%nat)
    by (vm_compute; reflexivity).
  rewrite E in H. lia.
Qed.

Lemma C1_witness :
  length (callsFor "domain-c8"
            (calls (resolve Sample.namesDown Sample.inventory))) = 2%nat
  /\ (length (callsFor "domain-c8"
                (calls (resolve Sample.namesOK Sample.inventory))) <= 1)%nat.
Proof.
  split.
  - destruct (C1_resolved_once_unless_failed Sample.namesDown Sample.inventory
                "domain-c8") as (_ & Hfail & _).
    rewrite Hfail; [reflexivity|]. intros j h p _ _ _. reflexivity.
  - destruct (C1_resolved_once_unless_failed Sample.namesOK Sample.inventory
                "domain-c8") as (_ & _ & _ & Honce).
    apply Honce. intros c Hc. vm_compute in Hc.
    apply list_elem_of_singleton in Hc. subst c. simpl. eauto.
Defined.

(** Anonymised, a host of an unresolved cluster gets "Cluster 1", not an
    empty column. *)
Lemma C2_anonymized_label_for_unresolved :
  ~ unresolved_cluster_empty Sample.namesDown Sample.vsanOK Sample.disksOK
      true [Sample.esx1].
Proof.
  intros H.
  pose proof (H 0%nat Sample.esx1 _ _ _ eq_refl eq_refl eq_refl eq_refl eq_refl)
    as Hc.
  vm_compute in Hc. discriminate.
Qed.

Lemma C2_witness :
  exists rows row,
    main Sample.namesDown Sample.vsanOK Sample.disksOK true Sample.inventory
    = Some rows
    /\ length rows = 4%nat
    /\ rows !! 2%nat = Some row
    /\ exists k,
         1 <= k
         /\ anonClusters true Sample.inventory
              (parentNames Sample.namesDown Sample.inventory) !! ""
            = Some ("Cluster " +:+ Itoa k)
         /\ row !! col_Cluster = Some ("Cluster " +:+ Itoa k).
Proof.
  apply (C2_unresolved_group_column Sample.namesDown Sample.vsanOK
           Sample.disksOK true Sample.inventory 2 Sample.esx3
           (Sample.ref "ClusterComputeResource" "domain-c9"));
    reflexivity.
Defined.

(** 7/8 TiB is shown as "0.9"; cut after the first decimal it would be
    "0.8". *)
Lemma C3_rounds_up : ~ capacity_rendered_truncated 962072674304.
Proof. intros [_ H]. vm_compute in H. discriminate. Qed.

Lemma C3_witness :
  (Float64.toQ (toTiB 962072674304)
   == inject_Z 962072674304 / inject_Z (1024 ^ 4))%Q.
Proof.
  apply (C3_capacity_exact_and_rounded 962072674304). simpl. lia.
Defined.

(** A disk group with one capacity disk of 4096 * 2^52 = 2^64 bytes: the
    accumulator wraps to 0 and the host stores 0 TiB. *)
Lemma C4_capacity_wraps :
  ~ osa_capacity_is_sum vsanHuge Sample.disksOK 0 Sample.esx1.
Proof.
  intros H.
  destruct (H (Sample.ref "HostVsanSystem" "vsan-1") _ _
              eq_refl eq_refl eq_refl eq_refl ltac:(discriminate))
    as (info & Hinfo & _ & _ & Hq).
  vm_compute in Hinfo. injection Hinfo as <-.
  vm_compute in Hq. discriminate Hq.
Qed.

Lemma C4_witness :
  exists info,
    hostVsanInfo Sample.vsanOK Sample.disksOK 0 Sample.esx1 = Some info
    /\ clusterType info = "OSA"
    /\ cacheDisks info = 1
    /\ totalDisks info = 4
    /\ (Float64.toQ (capacityTiB info)
        == inject_Z 4000000000000 / inject_Z (1024 ^ 4))%Q.
Proof.
  destruct (C4_osa_disk_accounting Sample.vsanOK Sample.disksOK 0 Sample.esx1
              (Sample.ref "HostVsanSystem" "vsan-1")
              (Sample.vsanSystem None (Some [Sample.group4]))
              {| DiskMapping := [Sample.group4] |}
              eq_refl eq_refl eq_refl eq_refl ltac:(discriminate))
    as (info & Hinfo & Hty & Hcache & Htotal & _ & Hvalue & Hfits).
  exists info. repeat split; try done.
  change 4000000000000
    with (Int.int64 (groupBytes (DiskMapping {| DiskMapping := [Sample.group4] |}))).
  apply Hvalue.
  rewrite Hfits.
  - change (Z.abs 4000000000000 < 2 ^ 53). lia.
  - change (Int.in_range 64 4000000000000). unfold Int.in_range. lia.
Defined.

(** One in-use disk of 512 * 2^54 = 2^63 bytes: the accumulator wraps to
    -2^63 and the host stores a negative capacity. *)
Lemma C5_capacity_wraps :
  ~ esa_capacity_is_sum Sample.vsanOK disksHuge 1 Sample.esx2.
Proof.
  intros H.
  destruct (H (Sample.ref "HostVsanSystem" "vsan-2") _ _
              eq_refl eq_refl eq_refl eq_refl)
    as (info & Hinfo & _ & _ & Hq).
  vm_compute in Hinfo. injection Hinfo as <-.
  vm_compute in Hq. discriminate Hq.
Qed.

Lemma C5_witness :
  exists info,
    hostVsanInfo Sample.vsanOK Sample.disksOK 1 Sample.esx2 = Some info
    /\ clusterType info = "ESA"
    /\ cacheDisks info = 0
    /\ totalDisks info = 2
    /\ (Float64.toQ (capacityTiB info)
        == inject_Z 1920000000000 / inject_Z (1024 ^ 4))%Q.
Proof.
  destruct (C5_esa_disk_accounting Sample.vsanOK Sample.disksOK 1 Sample.esx2
              (Sample.ref "HostVsanSystem" "vsan-2")
              (Sample.vsanSystem (Some true) None)
              eq_refl eq_refl eq_refl)
    as (info & Hinfo & Hty & Hcache & Hdisks).
  destruct (Hdisks _ eq_refl) as (Htotal & _ & Hvalue & Hfits).
  exists info. repeat split; try done.
  apply Hvalue. rewrite Hfits.
  - change (Z.abs 1920000000000 < 2 ^ 53). lia.
  - change (Int.in_range 64 1920000000000). unfold Int.in_range. lia.
Defined.

Lemma C7_witness :
  exists rows row,
    main Sample.namesOK Sample.vsanOK Sample.disksOK false Sample.inventory
    = Some rows
    /\ rows !! 0%nat = Some row
    /\ row !! col_CoresPerSocket = Some (Itoa 16).
Proof.
  apply (C7_cores_per_socket_guarded Sample.namesOK Sample.vsanOK
           Sample.disksOK false Sample.inventory 0 Sample.esx1).
  - reflexivity.
  - intros hw [= <-]. unfold Int.in_range. simpl. lia.
Defined.




(** The later host of the name "esx2" has no storage subsystem, yet both
    records show the ESA facts of the earlier one. *)
Lemma C10_skipping_host_overwrites_nothing :
  ~ later_host_facts_win Sample.namesOK Sample.vsanOK Sample.disksOK false
      [Sample.esx2; Sample.esx2_bare].
Proof.
  intros H.
  pose proof (H 0%nat 1%nat Sample.esx2 Sample.esx2_bare _ _
                ltac:(lia) eq_refl eq_refl eq_refl eq_refl eq_refl eq_refl)
    as Hc.
  vm_compute in Hc. discriminate.
Qed.

Lemma C10_witness :
  exists rows row,
    main Sample.namesOK Sample.vsanOK Sample.disksOK false
      [Sample.esx2; Sample.esx2_bare] = Some rows
    /\ rows !! 1%nat = Some row
    /\ storageColumns row = ["ESA"; "2"; "0"; "1.7"].
Proof.
  apply (C10_facts_joined_by_name Sample.namesOK Sample.vsanOK Sample.disksOK
           false [Sample.esx2; Sample.esx2_bare] 1 0 Sample.esx2_bare
           Sample.esx2
           {| capacityTiB := toTiB 1920000000000; totalDisks := 2;
              cacheDisks := 0; clusterType := "ESA" |});
    try reflexivity.
  intros [|[|k]] hk Hlt Hk Hn; try lia; try discriminate.
  injection Hk as <-. reflexivity.
Defined.

(** * Further properties of the engine *)

(** ** Shape of the records *)
Section RowShape.
Variable RetrieveName : nat -> ManagedObjectReference -> option string.
Variable RetrieveVsan : nat -> ManagedObjectReference -> option HostVsanSystem.
Variable QueryDisksForVsan :
  nat -> ManagedObjectReference -> option (list VsanHostDiskResult).

Lemma cpuFields_eq h :
  cpuFields h
  = Some (match Hardware h with
          | None => (0, 0, 0, 0)
          | Some hw =>
              (NumCpuPackages (CpuInfo hw), NumCpuCores (CpuInfo hw),
               if 0 <? NumCpuPackages (CpuInfo hw)
               then Int.int16 (Z.quot (NumCpuCores (CpuInfo hw))
                                 (NumCpuPackages (CpuInfo hw)))
               else 0,
               Z.quot (MemorySize hw) (1024 * 1024 * 1024))
          end).
Proof.
  unfold cpuFields. destruct (Hardware h) as [hw|]; [|done].
  by rewrite coresPerSocket_total.
Qed.

(** The record of host [i] in the output of [main]. *)
Lemma main_row anonymize hosts i h :
  hosts !! i = Some h ->
  exists rows,
    main RetrieveName RetrieveVsan QueryDisksForVsan anonymize hosts = Some rows
    /\ rows !! i
       = writeRow anonymize (parentNames RetrieveName hosts)
           (anonClusters anonymize hosts (parentNames RetrieveName hosts))
           (vsanInfo RetrieveVsan QueryDisksForVsan hosts) i h.
Proof.
  intros Hi.
  destruct (main_rows RetrieveName RetrieveVsan QueryDisksForVsan anonymize hosts)
    as (rows & Hmain & _ & Hlook).
  exists rows. split; [done|]. symmetry. by apply Hlook.
Qed.

(** X1: whatever the hosts lack and whichever lookups fail, the run yields
    exactly one record per host, and every record has as many fields as the
    header. *)
Theorem rows_one_per_host_header_width (anonymize : bool)
    (hosts : list HostSystem) :
  exists rows,
    main RetrieveName RetrieveVsan QueryDisksForVsan anonymize hosts = Some rows
    /\ length rows = length hosts
    /\ forall row, row ∈ rows -> length row = length header.
Proof.
  destruct (main_rows RetrieveName RetrieveVsan QueryDisksForVsan anonymize hosts)
    as (rows & Hmain & Hlen & Hlook).
  exists rows. split; [done|]. split; [done|].
  intros row Hrow. apply list_elem_of_lookup in Hrow as [i Hi].
  destruct (lookup_lt_is_Some_2 hosts i) as [h Hh].
  { rewrite <- Hlen. by eapply lookup_lt_Some. }
  rewrite <- (Hlook i h Hh) in Hi.
  destruct (writeRow_total anonymize (parentNames RetrieveName hosts)
              (anonClusters anonymize hosts (parentNames RetrieveName hosts))
              (vsanInfo RetrieveVsan QueryDisksForVsan hosts) i h)
    as (row' & Hrow' & Hwidth & _).
  rewrite Hrow' in Hi. injection Hi as <-. exact Hwidth.
Qed.

(** X2: the Hostname column is the display name of the host, or "Host n"
    with n its position counted from 1 under anonymisation; two different
    records of an anonymised run never share a hostname. *)
Theorem hostname_column (anonymize : bool) (hosts : list HostSystem)
    (i : nat) (h : HostSystem) :
  hosts !! i = Some h ->
  exists rows row,
    main RetrieveName RetrieveVsan QueryDisksForVsan anonymize hosts = Some rows
    /\ rows !! i = Some row
    /\ row !! col_Hostname
       = Some (if anonymize then "Host " +:+ Itoa (Z.of_nat i + 1)
               else hostName h)
    /\ (anonymize = true ->
        forall j row', j <> i -> rows !! j = Some row' ->
          row' !! col_Hostname <> row !! col_Hostname).
Proof.
  intros Hi.
  destruct (main_rows RetrieveName RetrieveVsan QueryDisksForVsan anonymize hosts)
    as (rows & Hmain & Hlen & Hlook).
  pose proof (Hlook i h Hi) as Hrow.
  unfold writeRow in Hrow. rewrite cpuFields_eq in Hrow. simpl in Hrow.
  destruct (Hardware h) as [hw|]; simpl in Hrow;
    (eexists rows, _; split; [done|]; split; [by symmetry|]; split; [done|]);
    intros -> j row' Hne Hj;
    (destruct (lookup_lt_is_Some_2 hosts j) as [hj Hhj];
     [rewrite <- Hlen; by eapply lookup_lt_Some|]);
    pose proof (Hlook j hj Hhj) as Hrowj; rewrite Hj in Hrowj;
    unfold writeRow in Hrowj; rewrite cpuFields_eq in Hrowj;
    simpl in Hrowj;
    destruct (Hardware hj); simpl in Hrowj; injection Hrowj as <-; simpl;
    intros [= Heq]; simpl in Heq; apply Itoa_inj in Heq; lia.
Qed.

(** X3: a host without hardware data gets an empty CPU model and "0" for
    the socket count, the cores per socket, the total cores and the
    memory. *)
Theorem hardware_absent_columns (anonymize : bool) (hosts : list HostSystem)
    (i : nat) (h : HostSystem) :
  hosts !! i = Some h ->
  Hardware h = None ->
  exists rows row,
    main RetrieveName RetrieveVsan QueryDisksForVsan anonymize hosts = Some rows
    /\ rows !! i = Some row
    /\ take 5 (drop 4 row) = [""; "0"; "0"; "0"; "0"].
Proof.
  intros Hi Hhw.
  destruct (main_row anonymize hosts i h Hi) as (rows & Hmain & Hrow).
  unfold writeRow in Hrow. rewrite cpuFields_eq, Hhw in Hrow. simpl in Hrow.
  eexists rows, _. split; [done|]. split; [exact Hrow|]. reflexivity.
Qed.

(** X4: with hardware data, the CPU model is the description of the first
    CPU package (empty without packages), the socket and core columns print
    the two counters, and the memory column is the physical memory in whole
    GiB: for a non-negative size, the largest g with g * 2^30 bytes not
    above it. *)
Theorem hardware_columns (anonymize : bool) (hosts : list HostSystem)
    (i : nat) (h : HostSystem) (hw : HostHardwareInfo) :
  hosts !! i = Some h ->
  Hardware h = Some hw ->
  exists rows row g,
    main RetrieveName RetrieveVsan QueryDisksForVsan anonymize hosts = Some rows
    /\ rows !! i = Some row
    /\ row !! 4%nat = Some (match CpuPkg hw with
                            | pkg :: _ => Description pkg
                            | [] => ""
                            end)
    /\ row !! col_Sockets = Some (Itoa (NumCpuPackages (CpuInfo hw)))
    /\ row !! col_TotalCores = Some (Itoa (NumCpuCores (CpuInfo hw)))
    /\ row !! 8%nat = Some (Itoa g)
    /\ (0 <= MemorySize hw ->
        g * 2 ^ 30 <= MemorySize hw < (g + 1) * 2 ^ 30).
Proof.
  intros Hi Hhw.
  destruct (main_row anonymize hosts i h Hi) as (rows & Hmain & Hrow).
  unfold writeRow in Hrow. rewrite cpuFields_eq, Hhw in Hrow. simpl in Hrow.
  eexists rows, _, _. split; [done|]. split; [exact Hrow|].
  change (1024 * 1024 * 1024) with 1073741824.
  change (2 ^ 30) with 1073741824.
  repeat split; try reflexivity.
  - rewrite Z.quot_div_nonneg by lia.
    pose proof (Z.mul_div_le (MemorySize hw) 1073741824). lia.
  - rewrite Z.quot_div_nonneg by lia.
    pose proof (Z.mul_succ_div_gt (MemorySize hw) 1073741824). lia.
Qed.

End RowShape.

(** ** What the first pass stores *)
Section Memo.
Variable RetrieveName : nat -> ManagedObjectReference -> option string.

(** An entry of the memo is never overwritten. *)
Lemma resolveHost_keeps i h st v n :
  names st !! v = Some n -> names (resolveHost RetrieveName i h st) !! v = Some n.
Proof.
  intros Hv. unfold resolveHost.
  destruct (Parent h) as [p|]; [|done].
  destruct (names st !! moValue p) as [n'|] eqn:Hmemo; [done|].
  destruct (RetrieveName i p) as [name|]; [|done]. simpl.
  rewrite lookup_insert_ne; [done|]. congruence.
Qed.

Lemma resolve_keeps hosts i st v n :
  names st !! v = Some n ->
  names (forRange (resolveHost RetrieveName) i hosts st) !! v = Some n.
Proof.
  apply (forRange_invariant (resolveHost RetrieveName)
           (fun st => names st !! v = Some n)).
  intros. by apply resolveHost_keeps.
Qed.

(** A host that is no success for [v] leaves the entry of [v] empty. *)
Lemma resolveHost_no_success i h st v :
  names st !! v = None ->
  (forall p, Parent h = Some p -> moValue p = v -> RetrieveName i p = None) ->
  names (resolveHost RetrieveName i h st) !! v = None.
Proof.
  intros Hv Hfail. unfold resolveHost.
  destruct (Parent h) as [p|]; [|done].
  destruct (names st !! moValue p) as [n'|] eqn:Hmemo; [done|].
  destruct (RetrieveName i p) as [name|] eqn:Hcall; [|done]. simpl.
  destruct (decide (moValue p = v)) as [Heq|Hne].
  - rewrite (Hfail p eq_refl Heq) in Hcall. discriminate.
  - by rewrite lookup_insert_ne.
Qed.

Lemma first_success_skip i h hosts v n :
  (forall p, Parent h = Some p -> moValue p = v -> RetrieveName i p = None) ->
  first_success RetrieveName i (h :: hosts) v n
  <-> first_success RetrieveName (S i) hosts v n.
Proof.
  intros Hfail. split.
  - intros (j & hj & p & Hj & Hp & Hv & Hcall & Hbefore).
    destruct j as [|j]; simpl in Hj.
    + injection Hj as <-. rewrite Nat.add_0_r in Hcall.
      rewrite (Hfail p Hp Hv) in Hcall. discriminate.
    + exists j, hj, p. repeat split; try done.
      * rewrite <- Hcall. f_equal. lia.
      * intros j' h' p' Hlt Hj' Hp' Hv'.
        rewrite <- (Hbefore (S j') h' p'); auto with lia. f_equal. lia.
  - intros (j & hj & p & Hj & Hp & Hv & Hcall & Hbefore).
    exists (S j), hj, p. repeat split; try done.
    + rewrite <- Hcall. f_equal. lia.
    + intros [|j'] h' p' Hlt Hj' Hp' Hv'; simpl in Hj'.
      * injection Hj' as <-. rewrite Nat.add_0_r. by apply Hfail.
      * rewrite <- (Hbefore j' h' p'); auto with lia. f_equal. lia.
Qed.

Lemma resolve_first_success hosts : forall i st v n,
  names st !! v = None ->
  names (forRange (resolveHost RetrieveName) i hosts st) !! v = Some n
  <-> first_success RetrieveName i hosts v n.
Proof.
  induction hosts as [|h hosts IH]; intros i st v n Hv; simpl.
  - rewrite Hv. split; [done|]. by intros (j & hj & p & Hj & _).
  - destruct (Parent h) as [p|] eqn:Hp.
    2:{ rewrite first_success_skip by (intros p; congruence).
        apply IH. unfold resolveHost. by rewrite Hp. }
    destruct (decide (moValue p = v)) as [Heq|Hne].
    2:{ rewrite first_success_skip
          by (intros p' Hp'; rewrite Hp in Hp'; injection Hp' as <-; congruence).
        apply IH. apply resolveHost_no_success; [done|].
        intros p' Hp'. rewrite Hp in Hp'. injection Hp' as <-. congruence. }
    destruct (RetrieveName i p) as [n0|] eqn:Hcall.
    + assert (Hst : names (resolveHost RetrieveName i h st) !! v = Some n0).
      { unfold resolveHost. rewrite Hp, Heq, Hv, Hcall. simpl.
        apply lookup_insert_eq. }
      rewrite (resolve_keeps hosts (S i) _ v n0 Hst). split.
      * intros [= <-]. exists 0%nat, h, p. repeat split; try done.
        -- by rewrite Nat.add_0_r.
        -- intros j' h' p' Hlt. lia.
      * intros (j & hj & p' & Hj & Hp' & Hv' & Hcall' & Hbefore).
        destruct j as [|j]; simpl in Hj.
        -- injection Hj as <-. rewrite Nat.add_0_r in Hcall'. congruence.
        -- specialize (Hbefore 0%nat h p ltac:(lia) eq_refl Hp Heq).
           rewrite Nat.add_0_r in Hbefore. congruence.
    + rewrite first_success_skip
        by (intros p' Hp'; rewrite Hp in Hp'; injection Hp' as <-; congruence).
      apply IH. apply resolveHost_no_success; [done|].
      intros p' Hp'. rewrite Hp in Hp'. injection Hp' as <-. congruence.
Qed.

Lemma all_lookups_fail_skip i h hosts v :
  (forall p, Parent h = Some p -> moValue p = v -> RetrieveName i p = None) ->
  all_lookups_fail RetrieveName i (h :: hosts) v
  <-> all_lookups_fail RetrieveName (S i) hosts v.
Proof.
  intros Hh. split.
  - intros Hall j hj p Hj Hp Hv.
    rewrite <- (Hall (S j) hj p Hj Hp Hv). f_equal. lia.
  - intros Hall [|j] hj p Hj Hp Hv; simpl in Hj.
    + injection Hj as <-. rewrite Nat.add_0_r. by apply Hh.
    + rewrite <- (Hall j hj p Hj Hp Hv). f_equal. lia.
Qed.

Lemma resolve_all_fail hosts : forall i st v,
  names st !! v = None ->
  names (forRange (resolveHost RetrieveName) i hosts st) !! v = None
  <-> all_lookups_fail RetrieveName i hosts v.
Proof.
  induction hosts as [|h hosts IH]; intros i st v Hv; simpl.
  - split; [|done]. by intros _ j hj p Hj.
  - destruct (Parent h) as [p|] eqn:Hp.
    2:{ rewrite all_lookups_fail_skip by (intros p; congruence).
        apply IH. unfold resolveHost. by rewrite Hp. }
    destruct (decide (moValue p = v)) as [Heq|Hne].
    2:{ rewrite all_lookups_fail_skip
          by (intros p' Hp'; rewrite Hp in Hp'; injection Hp' as <-; congruence).
        apply IH. apply resolveHost_no_success; [done|].
        intros p' Hp'. rewrite Hp in Hp'. injection Hp' as <-. congruence. }
    destruct (RetrieveName i p) as [n0|] eqn:Hcall.
    + assert (Hst : names (resolveHost RetrieveName i h st) !! v = Some n0).
      { unfold resolveHost. rewrite Hp, Heq, Hv, Hcall. simpl.
        apply lookup_insert_eq. }
      rewrite (resolve_keeps hosts (S i) _ v n0 Hst). split; [done|].
      intros Hall. specialize (Hall 0%nat h p eq_refl Hp Heq).
      rewrite Nat.add_0_r in Hall. congruence.
    + rewrite all_lookups_fail_skip
        by (intros p' Hp'; rewrite Hp in Hp'; injection Hp' as <-; congruence).
      apply IH. apply resolveHost_no_success; [done|].
      intros p' Hp'. rewrite Hp in Hp'. injection Hp' as <-. congruence.
Qed.

(** X5: the name kept for a group back-reference is the answer of the first
    successful lookup among the hosts sharing it, in host order; later
    answers are never requested.  The back-reference stays unresolved
    exactly when the lookup fails at every host sharing it. *)
Theorem group_name_is_first_success (hosts : list HostSystem) (v : string) :
  (forall n,
     parentNames RetrieveName hosts !! v = Some n
     <-> first_success RetrieveName 0 hosts v n)
  /\ (parentNames RetrieveName hosts !! v = None
      <-> all_lookups_fail RetrieveName 0 hosts v).
Proof.
  unfold parentNames, resolve. split.
  - intros n. by apply resolve_first_success.
  - by apply resolve_all_fail.
Qed.

Lemma resolveHost_counts i h st :
  size (names st) = length (filter succeeded (calls st)) ->
  size (names (resolveHost RetrieveName i h st))
  = length (filter succeeded (calls (resolveHost RetrieveName i h st))).
Proof.
  intros Hinv. unfold resolveHost.
  destruct (Parent h) as [p|]; [|done].
  destruct (names st !! moValue p) as [n'|] eqn:Hmemo; [done|].
  destruct (RetrieveName i p) as [name|]; simpl; rewrite filter_app, length_app.
  - rewrite map_size_insert_None by done.
    rewrite filter_cons_True by (by eexists). simpl. lia.
  - rewrite filter_cons_False by (intros [x Hx]; discriminate). simpl. lia.
Qed.

Lemma resolve_calls_bound hosts : forall i st,
  (length (calls (forRange (resolveHost RetrieveName) i hosts st))
   <= length (calls st) + length (filter grouped hosts))%nat.
Proof.
  induction hosts as [|h hosts IH]; intros i st; simpl; [lia|].
  etrans; [apply IH|].
  unfold resolveHost, grouped.
  destruct (Parent h) as [p|] eqn:Hp.
  - rewrite filter_cons_True by (rewrite Hp; by eexists).
    destruct (names st !! moValue p); [simpl; lia|].
    destruct (RetrieveName i p); simpl; rewrite length_app; simpl; lia.
  - rewrite filter_cons_False by (rewrite Hp; by intros [x Hx]). lia.
Qed.

(** X6: the first pass makes at most one lookup per host that has a parent,
    and its successful lookups are exactly as many as the names it keeps:
    no successful answer is fetched twice or thrown away. *)
Theorem lookups_counted (hosts : list HostSystem) :
  length (filter succeeded (calls (resolve RetrieveName hosts)))
  = size (parentNames RetrieveName hosts)
  /\ (length (calls (resolve RetrieveName hosts))
      <= length (filter grouped hosts))%nat.
Proof.
  split.
  - symmetry. unfold parentNames, resolve.
    apply (forRange_invariant (resolveHost RetrieveName)
             (fun st => size (names st) = length (filter succeeded (calls st)))).
    + intros. by apply resolveHost_counts.
    + done.
  - unfold resolve. etrans; [apply resolve_calls_bound|]. simpl. lia.
Qed.

End Memo.

(** ** The Cluster column *)
Section ClusterColumn.
Variable RetrieveName : nat -> ManagedObjectReference -> option string.
Variable RetrieveVsan : nat -> ManagedObjectReference -> option HostVsanSystem.
Variable QueryDisksForVsan :
  nat -> ManagedObjectReference -> option (list VsanHostDiskResult).

(** Every host with a parent has its real name labelled by the second
    pass. *)
Lemma met_name_labelled pn hosts i h p :
  hosts !! i = Some h ->
  Parent h = Some p ->
  exists k,
    firstEncounters (realNames pn hosts) !! k = Some (mapIndex "" pn (moValue p))
    /\ anonClusters true hosts pn !! mapIndex "" pn (moValue p)
       = Some (clusterLabel k).
Proof.
  intros Hi Hp.
  assert (Hin : mapIndex "" pn (moValue p)
                ∈ firstEncounters (realNames pn hosts)).
  { destruct (firstEncounters_from [] (realNames pn hosts) NoDup_nil_2)
      as [_ Hmem].
    apply Hmem. right. apply list_elem_of_omap. exists h. split.
    - apply list_elem_of_lookup. eauto.
    - unfold realNameOf. by rewrite Hp. }
  apply list_elem_of_lookup in Hin as [k Hk].
  exists k. split; [done|]. apply anonClusters_labels. eauto.
Qed.

(** X7: the Cluster column groups the hosts exactly as their real group
    names do, anonymised or not: two hosts with a parent show the same
    Cluster field if and only if their parents have the same name in
    [parentNames]; in particular two hosts sharing a back-reference always
    show the same field. *)
Theorem cluster_column_groups_by_name (anonymize : bool)
    (hosts : list HostSystem) (i j : nat) (hi hj : HostSystem)
    (pi pj : ManagedObjectReference) :
  hosts !! i = Some hi -> hosts !! j = Some hj ->
  Parent hi = Some pi -> Parent hj = Some pj ->
  exists rows ri rj,
    main RetrieveName RetrieveVsan QueryDisksForVsan anonymize hosts = Some rows
    /\ rows !! i = Some ri /\ rows !! j = Some rj
    /\ (ri !! col_Cluster = rj !! col_Cluster
        <-> mapIndex "" (parentNames RetrieveName hosts) (moValue pi)
            = mapIndex "" (parentNames RetrieveName hosts) (moValue pj))
    /\ (moValue pi = moValue pj -> ri !! col_Cluster = rj !! col_Cluster).
Proof.
  intros Hi Hj Hpi Hpj.
  destruct (main_rows RetrieveName RetrieveVsan QueryDisksForVsan anonymize hosts)
    as (rows & Hmain & _ & Hlook).
  set (pn := parentNames RetrieveName hosts) in *.
  destruct (writeRow_total anonymize pn (anonClusters anonymize hosts pn)
              (vsanInfo RetrieveVsan QueryDisksForVsan hosts) i hi)
    as (ri & Hri & _ & Hci & _).
  destruct (writeRow_total anonymize pn (anonClusters anonymize hosts pn)
              (vsanInfo RetrieveVsan QueryDisksForVsan hosts) j hj)
    as (rj & Hrj & _ & Hcj & _).
  exists rows, ri, rj. split; [done|].
  split; [by rewrite <- (Hlook i hi Hi)|].
  split; [by rewrite <- (Hlook j hj Hj)|].
  rewrite Hci, Hcj, Hpi, Hpj. cbv zeta.
  assert (Hiff : Some (if anonymize
                       then mapIndex "" (anonClusters anonymize hosts pn)
                              (mapIndex "" pn (moValue pi))
                       else mapIndex "" pn (moValue pi))
                 = Some (if anonymize
                         then mapIndex "" (anonClusters anonymize hosts pn)
                                (mapIndex "" pn (moValue pj))
                         else mapIndex "" pn (moValue pj))
                 <-> mapIndex "" pn (moValue pi) = mapIndex "" pn (moValue pj)).
  { destruct anonymize; [|split; congruence].
    destruct (met_name_labelled pn hosts i hi pi Hi Hpi) as (ki & Hoi & Hli).
    destruct (met_name_labelled pn hosts j hj pj Hj Hpj) as (kj & Hoj & Hlj).
    split; [|congruence].
    unfold mapIndex at 1 3. rewrite Hli, Hlj. unfold default.
    intros Heq. unfold id in Heq.
    assert (Hk : ki = kj) by (apply clusterLabel_inj; congruence).
    congruence. }
  split; [exact Hiff|]. intros Hv. apply Hiff. by rewrite Hv.
Qed.

Lemma anonHost_counter pn i h st :
  idx st = Z.of_nat (size (labels st)) ->
  idx (anonHost pn i h st) = Z.of_nat (size (labels (anonHost pn i h st))).
Proof.
  intros Hinv. unfold anonHost.
  destruct (Parent h) as [p|]; [|done].
  destruct (labels st !! _) eqn:Hl; [done|]. simpl.
  rewrite map_size_insert_None by done. lia.
Qed.

Lemma firstEncounters_length l : forall seen,
  (length (foldl encounter seen l) <= length seen + length l)%nat.
Proof.
  induction l as [|x l IH]; intros seen; simpl; [lia|].
  etrans; [apply IH|]. unfold encounter.
  destruct (decide (x ∈ seen)); [lia|]. rewrite length_app. simpl. lia.
Qed.

Lemma realNames_length pn hosts :
  length (realNames pn hosts) = length (filter grouped hosts).
Proof.
  unfold realNames, grouped.
  induction hosts as [|h hosts IH]; [done|]. simpl.
  unfold realNameOf at 1.
  destruct (Parent h) as [p|] eqn:Hp; simpl.
  - rewrite filter_cons_True by (rewrite Hp; by eexists). simpl. by f_equal.
  - by rewrite filter_cons_False by (rewrite Hp; by intros [x Hx]).
Qed.

(** X8: the labels of an anonymised run are "Cluster 1" to "Cluster n"
    without a gap, n being the number of labelled names, and n is at most
    the number of hosts that have a parent. *)
Theorem anonymized_labels_contiguous (pn : gmap string string)
    (hosts : list HostSystem) :
  let m := anonClusters true hosts pn in
  (forall k,
     (exists name, m !! name = Some ("Cluster " +:+ Itoa k))
     <-> 1 <= k <= Z.of_nat (size m))
  /\ (size m <= length (filter grouped hosts))%nat.
Proof.
  intros m.
  assert (Hsize : size m = length (firstEncounters (realNames pn hosts))).
  { destruct (anon_inv_loop pn hosts 0%nat _ _ anon_inv_init) as (Hidx & _).
    assert (Hcnt : idx (forRange (anonHost pn) 0 hosts {| labels := ∅; idx := 0 |})
                   = Z.of_nat (size (labels (forRange (anonHost pn) 0 hosts
                                               {| labels := ∅; idx := 0 |})))).
    { apply (forRange_invariant (anonHost pn)
               (fun st => idx st = Z.of_nat (size (labels st)))).
      - intros. by apply anonHost_counter.
      - done. }
    unfold m, anonClusters, firstEncounters. lia. }
  split.
  - intros k. rewrite Hsize. split.
    + intros (name & Hname).
      apply anonClusters_labels in Hname as (k' & Hk' & Heq).
      unfold clusterLabel in Heq. simpl in Heq.
      injection Heq as Heq. apply Itoa_inj in Heq.
      apply lookup_lt_Some in Hk'. lia.
    + intros Hk.
      destruct (lookup_lt_is_Some_2 (firstEncounters (realNames pn hosts))
                  (Z.to_nat (k - 1))) as [name Hname]; [lia|].
      exists name. apply anonClusters_labels. exists (Z.to_nat (k - 1)).
      split; [done|]. unfold clusterLabel. do 2 f_equal. lia.
  - rewrite Hsize, <- (realNames_length pn).
    pose proof (firstEncounters_length (realNames pn hosts) []) as Hle.
    simpl in Hle. exact Hle.
Qed.

End ClusterColumn.

(** ** The storage columns *)
Section StorageColumns.
Variable RetrieveName : nat -> ManagedObjectReference -> option string.
Variable RetrieveVsan : nat -> ManagedObjectReference -> option HostVsanSystem.
Variable QueryDisksForVsan :
  nat -> ManagedObjectReference -> option (list VsanHostDiskResult).

(** X9: when the configuration of a host's storage subsystem cannot be
    fetched, the host stores no facts, and unless another host of the same
    display name stores some, its record shows an empty vSAN type, "0" for
    both counts and "0.0". *)
Theorem config_fetch_failure_degrades (anonymize : bool)
    (hosts : list HostSystem) (i : nat) (h : HostSystem) :
  hosts !! i = Some h ->
  config_fetch_fails RetrieveVsan i h ->
  hostVsanInfo RetrieveVsan QueryDisksForVsan i h = None
  /\ ((forall j hj, hosts !! j = Some hj -> hostName hj = hostName h ->
         hostVsanInfo RetrieveVsan QueryDisksForVsan j hj = None) ->
      exists rows row,
        main RetrieveName RetrieveVsan QueryDisksForVsan anonymize hosts
        = Some rows
        /\ rows !! i = Some row
        /\ storageColumns row = [""; "0"; "0"; "0.0"]).
Proof.
  intros Hi (vsanRef & Href & Hfail).
  split; [unfold hostVsanInfo; by rewrite Href, Hfail|].
  intros Hsame.
  destruct (main_row RetrieveName RetrieveVsan QueryDisksForVsan anonymize
              hosts i h Hi) as (rows & Hmain & Hrow).
  destruct (writeRow_total anonymize (parentNames RetrieveName hosts)
              (anonClusters anonymize hosts (parentNames RetrieveName hosts))
              (vsanInfo RetrieveVsan QueryDisksForVsan hosts) i h)
    as (row & Hrow' & _ & _ & _ & Hst).
  exists rows, row. split; [done|]. split; [congruence|].
  rewrite Hst. unfold mapIndex, vsanInfo.
  rewrite vsanInfo_unchanged; [done|]. intros j hj Hj Hn. by apply Hsame.
Qed.

Lemma sumZ_nonneg {A} (f : A -> Z) l : (forall x, 0 <= f x) -> 0 <= sumZ f l.
Proof.
  intros Hf. induction l as [|x l IH]; simpl; [lia|].
  specialize (Hf x). lia.
Qed.

Lemma hostVsanInfo_well_tagged i h info :
  hostVsanInfo RetrieveVsan QueryDisksForVsan i h = Some info ->
  well_tagged info.
Proof.
  unfold hostVsanInfo, well_tagged.
  destruct (VsanSystem (ConfigManager h)) as [vsanRef|]; [|done].
  destruct (RetrieveVsan i vsanRef) as [vsanSys|]; [|done].
  destruct (isESA vsanSys).
  - destruct (QueryDisksForVsan i vsanRef) as [res|];
      [rewrite esa_totals|]; intros [= <-]; simpl; (split; [lia|by left]).
  - destruct (StorageInfo (Config vsanSys)) as [si|]; [|done].
    destruct (DiskMapping si) as [|dm groups]; [done|].
    change (length (dm :: groups) =? 0)%nat with false. cbv iota.
    rewrite osa_totals. intros [= <-]. split.
    + cbn [totalDisks].
      assert (0 <= groupDisks groups) by (apply sumZ_nonneg; intros; lia).
      lia.
    + right. split; [done|]. cbn [cacheDisks]. lia.
Qed.

(** An entry of [vsanInfo] was stored by a host of that name. *)
Lemma vsanInfo_origin hosts : forall i m n info,
  forRange (vsanHost RetrieveVsan QueryDisksForVsan) i hosts m !! n = Some info ->
  m !! n = Some info
  \/ exists j h, hosts !! j = Some h /\ hostName h = n
                 /\ hostVsanInfo RetrieveVsan QueryDisksForVsan (i + j) h
                    = Some info.
Proof.
  induction hosts as [|h hosts IH]; intros i m n info Hlook; simpl in *;
    [by left|].
  apply IH in Hlook as [Hm|(j & hj & Hj & Hn & Hinfo)].
  - unfold vsanHost in Hm.
    destruct (hostVsanInfo _ _ i h) as [info'|] eqn:Hinfo; [|by left].
    destruct (decide (hostName h = n)) as [Heq|Hne].
    + rewrite <- Heq, lookup_insert_eq in Hm. injection Hm as ->.
      right. exists 0%nat, h. by rewrite Nat.add_0_r.
    + rewrite lookup_insert_ne in Hm by done. by left.
  - right. exists (S j), hj. repeat split; try done.
    rewrite <- Hinfo. f_equal. lia.
Qed.

(** X10: a record either shows no vSAN at all (empty type, "0", "0" and
    "0.0") or the facts computed for a host of the same display name; such
    facts have a non-negative disk count and are tagged "ESA" without cache
    disk or "OSA" with at least one cache disk. *)
Theorem storage_columns_well_tagged (anonymize : bool)
    (hosts : list HostSystem) (i : nat) (h : HostSystem) :
  hosts !! i = Some h ->
  exists rows row,
    main RetrieveName RetrieveVsan QueryDisksForVsan anonymize hosts = Some rows
    /\ rows !! i = Some row
    /\ (storageColumns row = [""; "0"; "0"; "0.0"]
        \/ exists j hj info,
             hosts !! j = Some hj /\ hostName hj = hostName h
             /\ hostVsanInfo RetrieveVsan QueryDisksForVsan j hj = Some info
             /\ storageColumns row = renderInfo info
             /\ well_tagged info).
Proof.
  intros Hi.
  destruct (main_row RetrieveName RetrieveVsan QueryDisksForVsan anonymize
              hosts i h Hi) as (rows & Hmain & Hrow).
  destruct (writeRow_total anonymize (parentNames RetrieveName hosts)
              (anonClusters anonymize hosts (parentNames RetrieveName hosts))
              (vsanInfo RetrieveVsan QueryDisksForVsan hosts) i h)
    as (row & Hrow' & _ & _ & _ & Hst).
  exists rows, row. split; [done|]. split; [congruence|].
  rewrite Hst. unfold mapIndex.
  destruct (vsanInfo RetrieveVsan QueryDisksForVsan hosts !! hostName h)
    as [info|] eqn:Hlook; [|by left].
  right. unfold vsanInfo in Hlook.
  apply vsanInfo_origin in Hlook as [Hm|(j & hj & Hj & Hn & Hinfo)];
    [by rewrite lookup_empty in Hm|].
  exists j, hj, info. repeat split; try done;
    by eapply hostVsanInfo_well_tagged.
Qed.

End StorageColumns.

(** ** Order of the disks *)
Section DiskOrder.
Import Int IntFacts.

Lemma sumZ_Permutation {A} (f : A -> Z) l l' : l ≡ₚ l' -> sumZ f l = sumZ f l'.
Proof.
  induction 1 as [|x l l' _ IH|x y l|l l' l'' _ IH1 _ IH2]; simpl; lia.
Qed.

(** X11: the counts and the accumulated bytes do not depend on the order in
    which the disks, or the disk groups, are listed, wrap-around of the
    [int64] accumulator included. *)
Theorem disk_order_irrelevant :
  (forall res res' : list VsanHostDiskResult,
     res ≡ₚ res' -> foldl esaDisk (0, 0) res = foldl esaDisk (0, 0) res')
  /\ (forall groups groups' : list VsanHostDiskMapping,
        groups ≡ₚ groups' ->
        foldl osaGroup (0, 0) groups = foldl osaGroup (0, 0) groups').
Proof.
  split.
  - intros res res' Hperm. rewrite !esa_totals.
    assert (Hf : filter inUse res ≡ₚ filter inUse res') by (by rewrite Hperm).
    by rewrite (Permutation_length Hf), (sumZ_Permutation _ _ _ Hf).
  - intros groups groups' Hperm. rewrite !osa_totals.
    unfold groupDisks, groupBytes.
    by rewrite !(sumZ_Permutation _ _ _ Hperm).
Qed.

End DiskOrder.

(** ** Order of the rendered capacities *)
Section CapacityOrder.
Import Float64.

Lemma round_half_even_mono n1 n2 d :
  0 <= n1 <= n2 -> 0 < d -> round_half_even n1 d <= round_half_even n2 d.
Proof.
  intros Hn Hd. unfold round_half_even.
  pose proof (Z.div_mod n1 d) as H1. pose proof (Z.div_mod n2 d) as H2.
  pose proof (Z.mod_pos_bound n1 d Hd) as Hr1.
  pose proof (Z.mod_pos_bound n2 d Hd) as Hr2.
  assert (Hq : n1 / d <= n2 / d) by (apply Z.div_le_mono; lia).
  set (q1 := n1 / d) in *. set (q2 := n2 / d) in *.
  set (r1 := n1 mod d) in *. set (r2 := n2 mod d) in *.
  destruct (Z.eq_dec q1 q2) as [Heq|Hne].
  - assert (Hr : r1 <= r2) by (rewrite Heq in H1; lia).
    rewrite Heq.
    destruct (2 * r1 <? d) eqn:E1, (d <? 2 * r1) eqn:E1',
      (2 * r2 <? d) eqn:E2, (d <? 2 * r2) eqn:E2', (Z.even q2); lia.
  - destruct (2 * r1 <? d), (d <? 2 * r1), (Z.even q1),
      (2 * r2 <? d), (d <? 2 * r2), (Z.even q2); lia.
Qed.

(** X12: below 2^53 bytes the capacity column never decreases when the raw
    capacity grows: the tenths printed for a smaller byte count are at most
    those printed for a larger one. *)
Theorem capacity_rendering_monotone (b1 b2 : Z) :
  0 <= b1 <= b2 -> b2 < 2 ^ 53 ->
  tenths (toTiB b1) <= tenths (toTiB b2).
Proof.
  intros Hb Hlt. rewrite !toTiB_small by lia.
  change (tenths (mk b1 (-40))) with (round_half_even (10 * Z.abs b1) (2 ^ 40)).
  change (tenths (mk b2 (-40))) with (round_half_even (10 * Z.abs b2) (2 ^ 40)).
  apply round_half_even_mono; lia.
Qed.

(** X13: for a non-negative raw capacity below 2^53 bytes, the tenths
    printed are zero exactly when the capacity is at most 0.05 TiB, that is
    when twenty times the byte count does not exceed 2^40 (the tie at 0.05
    goes to the even tenth 0); the column then reads "0.0". *)
Theorem capacity_rendered_zero (b : Z) :
  0 <= b < 2 ^ 53 ->
  (tenths (toTiB b) = 0 <-> 20 * b <= 2 ^ 40)
  /\ (20 * b <= 2 ^ 40 -> Sprintf_1f (toTiB b) = "0.0").
Proof.
  intros Hb. rewrite toTiB_small by lia.
  change (tenths (mk b (-40))) with (round_half_even (10 * Z.abs b) (2 ^ 40)).
  unfold Sprintf_1f, render_tenths. simpl fnum.
  replace (b <? 0) with false by (symmetry; apply Z.ltb_ge; lia).
  change (tenths (mk b (-40))) with (round_half_even (10 * Z.abs b) (2 ^ 40)).
  rewrite Z.abs_eq by lia.
  destruct (round_half_even_spec (10 * b) (2 ^ 40)) as (Hq & Hnear & Htie);
    [lia|lia|].
  assert (0 <= 10 * b / 2 ^ 40) by (apply Z.div_pos; lia).
  set (t := round_half_even (10 * b) (2 ^ 40)) in *. clearbody t.
  assert (Hzero : 20 * b <= 2 ^ 40 -> t = 0).
  { intros Hle. destruct (Z.eq_dec t 0) as [|Hne]; [done|].
    assert (1 <= t) by lia. exfalso.
    assert (Hcase : 2 * Z.abs (10 * b - t * 2 ^ 40) = 2 ^ 40 /\ t = 1) by lia.
    destruct Hcase as [Habs ->]. specialize (Htie Habs). discriminate. }
  split.
  - split; [|exact Hzero]. intros Ht. rewrite Ht in Hnear. lia.
  - intros Hle. by rewrite (Hzero Hle).
Qed.

End CapacityOrder.

Example sample_program :
  program sampleFlags sampleServices
  = ([PromptPassword;
      Connect "https://vcenter.example.com/sdk" "administrator@vsphere.local"
        "secret" true;
      CreateView; RetrieveHosts; CreateFile "hosts_cpu.csv";
      WriteRecord header;
      WriteRecord ["esx1"; "Prod-domain-c8"; "PowerEdge R750"; "8.0.2";
                   "Intel(R) Xeon(R) Gold 6338"; "2"; "16"; "32"; "128";
                   "OSA"; "4"; "1"; "3.6"];
      WriteRecord ["esx4"; ""; "PowerEdge R750"; "8.0.2"; ""; "0"; "0"; "0";
                   "0"; ""; "0"; "0"; "0.0"];
      Flush; CloseFile;
      Stderr ("Wrote 2 hosts to hosts_cpu.csv" +:+ newline);
      Destroy; Logout], 0).
Proof. vm_compute. reflexivity. Qed.

(** ** Warnings of the first pass *)
Section Warnings.
Variable RetrieveName : nat -> ManagedObjectReference -> option string.

Lemma resolveLogged_state hosts : forall i st ws,
  (forRange
     (fun i h acc =>
        (resolveHost RetrieveName i h acc.1,
         (acc.2 ++ resolveWarning RetrieveName i h acc.1)%list))
     i hosts (st, ws)).1
  = forRange (resolveHost RetrieveName) i hosts st.
Proof.
  induction hosts as [|h hosts IH]; intros i st ws; simpl; [done|apply IH].
Qed.

Lemma resolveWarning_counts i h st :
  length (filter failed (calls (resolveHost RetrieveName i h st)))
  = (length (filter failed (calls st))
     + length (resolveWarning RetrieveName i h st))%nat.
Proof.
  unfold resolveHost, resolveWarning.
  destruct (Parent h) as [p|]; [|simpl; lia].
  destruct (names st !! moValue p); [simpl; lia|].
  destruct (RetrieveName i p); simpl; rewrite filter_app, length_app.
  - rewrite filter_cons_False by (unfold failed; simpl; congruence). simpl. lia.
  - by rewrite filter_cons_True by done.
Qed.

Lemma resolveLogged_counts hosts : forall i st ws,
  length ws = length (filter failed (calls st)) ->
  let res := forRange
               (fun i h acc =>
                  (resolveHost RetrieveName i h acc.1,
                   (acc.2 ++ resolveWarning RetrieveName i h acc.1)%list))
               i hosts (st, ws) in
  length res.2 = length (filter failed (calls res.1)).
Proof.
  induction hosts as [|h hosts IH]; intros i st ws Hinv; simpl; [done|].
  apply IH. rewrite length_app, resolveWarning_counts. simpl. lia.
Qed.

Lemma resolveLogged_names hosts : forall i st ws w,
  w ∈ (forRange
         (fun i h acc =>
            (resolveHost RetrieveName i h acc.1,
             (acc.2 ++ resolveWarning RetrieveName i h acc.1)%list))
         i hosts (st, ws)).2 ->
  w ∈ ws
  \/ exists j h p,
       hosts !! j = Some h /\ Parent h = Some p
       /\ RetrieveName (i + j) p = None /\ w = NoClusterName (hostName h).
Proof.
  induction hosts as [|h hosts IH]; intros i st ws w Hw; simpl in *;
    [by left|].
  apply IH in Hw as [Hw|(j & hj & p & Hj & Hp & Hcall & ->)].
  - apply elem_of_app in Hw as [Hw|Hw]; [by left|]. right.
    unfold resolveWarning in Hw.
    destruct (Parent h) as [p|] eqn:Hp; [|by apply elem_of_nil in Hw].
    destruct (names st !! moValue p); [by apply elem_of_nil in Hw|].
    destruct (RetrieveName i p) eqn:Hcall; [by apply elem_of_nil in Hw|].
    apply list_elem_of_singleton in Hw as ->.
    exists 0%nat, h, p. by rewrite Nat.add_0_r.
  - right. exists (S j), hj, p. repeat split; try done.
    rewrite <- Hcall. f_equal. lia.
Qed.

(** X14: the warnings of the first pass leave its result unchanged; there
    is exactly one warning per failed lookup, and each names a host with a
    parent at which the lookup failed. *)
Theorem one_warning_per_failed_lookup (hosts : list HostSystem) :
  (resolveLogged RetrieveName hosts).1 = resolve RetrieveName hosts
  /\ length (resolveLogged RetrieveName hosts).2
     = length (filter failed (calls (resolve RetrieveName hosts)))
  /\ forall w, w ∈ (resolveLogged RetrieveName hosts).2 ->
       exists j h p,
         hosts !! j = Some h /\ Parent h = Some p
         /\ RetrieveName j p = None /\ w = NoClusterName (hostName h).
Proof.
  unfold resolveLogged, resolve. split; [apply resolveLogged_state|]. split.
  - rewrite <- (resolveLogged_state hosts 0 _ []).
    by apply (resolveLogged_counts hosts 0 _ []).
  - intros w Hw. apply resolveLogged_names in Hw as [Hw|Hw]; [|done].
    by apply elem_of_nil in Hw.
Qed.

End Warnings.

(** ** The run as a whole *)

Section ProgramEvents.

Lemma elem_of_concat {A} (x : A) (ls : list (list A)) :
  x ∈ concat ls <-> exists l, x ∈ l /\ l ∈ ls.
Proof.
  induction ls as [|l ls IH]; simpl.
  - split.
    + intros H. by apply elem_of_nil in H.
    + intros (l & _ & H). by apply elem_of_nil in H.
  - rewrite elem_of_app, IH. split.
    + intros [Hx|(l' & Hx & Hl')].
      * exists l. split; [done|]. by left.
      * exists l'. split; [done|]. by right.
    + intros (l' & Hx & Hl'). apply elem_of_cons in Hl' as [->|Hl'].
      * by left.
      * right. eauto.
Qed.

Lemma hostVsanEvents_kind RV QD debug i h e :
  e ∈ hostVsanEvents RV QD debug i h -> pass_event e.
Proof.
  unfold hostVsanEvents. intros He.
  repeat case_match;
    repeat (first
      [ apply elem_of_app in He as [He|He]
      | apply elem_of_cons in He as [->|He]
      | exfalso; by apply elem_of_nil in He ]);
    done.
Qed.

Lemma passEvents_kind sv debug hosts e :
  e ∈ passEvents sv debug hosts -> pass_event e.
Proof.
  unfold passEvents. intros He. apply elem_of_app in He as [He|He].
  - apply list_elem_of_fmap in He as (w & -> & _). done.
  - apply elem_of_concat in He as (l & He & Hl).
    apply elem_of_lookup_imap in Hl as (i & h & -> & _).
    by eapply hostVsanEvents_kind.
Qed.

Lemma main_total sv anonymize hosts :
  exists rows,
    main (RetrieveOneName sv) (RetrieveOneVsan sv) (QueryDisks sv) anonymize hosts
    = Some rows
    /\ length rows = length hosts.
Proof.
  destruct (main_rows (RetrieveOneName sv) (RetrieveOneVsan sv) (QueryDisks sv)
              anonymize hosts) as (rows & Hmain & Hlen & _).
  eauto.
Qed.

Lemma prompt_events (b : bool) e :
  e ∈ (if b then [PromptPassword] else []) -> e = PromptPassword.
Proof.
  destruct b; intros He.
  - by apply list_elem_of_singleton in He.
  - by apply elem_of_nil in He.
Qed.

Lemma record_events (rows : list (list string)) e :
  e ∈ WriteRecord <$> rows -> exists r, e = WriteRecord r.
Proof. intros He. apply list_elem_of_fmap in He as (r & -> & _). eauto. Qed.

End ProgramEvents.

(** Case analysis of a membership in a sequence of events built by [++]
    and explicit events. *)
Ltac in_cases H :=
  repeat (first
    [ apply elem_of_app in H as [H|H]
    | apply elem_of_cons in H as [H|H]
    | exfalso; by apply elem_of_nil in H ]).

(** Close the cases in which the event cannot occur: it differs from the
    explicit events, and from the prompt, the pass events and the
    records. *)
Ltac absent Hev0 Hpass Hrec H :=
  first [ discriminate H
        | apply Hev0 in H; discriminate H
        | apply Hpass in H; exfalso; exact H
        | apply Hrec in H as [? H]; discriminate H ].

Ltac not_in Hev0 Hpass Hrec :=
  let H := fresh "Hin" in
  intros H; in_cases H; absent Hev0 Hpass Hrec H.

(** The branches of [program], with the prompt and the pass events kept
    abstract. *)
Ltac program_cases fl sv :=
  unfold program;
  pose proof (prompt_events (bool_decide (Flag.password fl = ""))) as Hev0;
  pose proof (passEvents_kind sv (Flag.debug fl)) as Hpass;
  pose proof record_events as Hrec;
  destruct (decide (Flag.host fl = "" \/ Flag.user fl = "")) as [Hflag|Hflag];
  [|destruct (if bool_decide (Flag.password fl = "") then ReadPassword sv
              else Some (Flag.password fl)) as [password|] eqn:Hpw;
    [destruct (urlParse sv _) eqn:Hurl;
     [destruct (NewClient sv _ _ _ _) eqn:Hnew;
      [destruct (CreateContainerView sv) eqn:Hview;
       [destruct (Retrieve sv) as [hosts|] eqn:Hret;
        [destruct (osCreate sv _) eqn:Hcreate;
         [destruct (main_total sv (Flag.anonymize fl) hosts)
            as (rows & Hmain & Hlen);
          rewrite Hmain;
          destruct (csvError sv) eqn:Hcsv;
          [|destruct (closeError sv) eqn:Hclose]
         |]|]|]|]|]|]];
  cbn [fst snd negb];
  set (ev0 := if bool_decide (Flag.password fl = "") then [PromptPassword]
              else []) in *;
  set (pe := passEvents sv (Flag.debug fl)) in *;
  clearbody ev0 pe.

Section Program.

(** Once the command line is accepted, a run never panics and ends in one
    of two ways: with exit status 0, the deferred [Destroy] and [Logout]
    being its last actions, or with exit status 1 after the usage text or a
    fatal message, in which case the view is never destroyed and the session
    never logged out. *)
Lemma program_exit_status (fl : Flag.t) (sv : Services) :
  (Panic ∉ fst (program fl sv))
  /\ ((snd (program fl sv) = 0
       /\ exists evs, fst (program fl sv) = (evs ++ [Destroy; Logout])%list)
      \/ (snd (program fl sv) = 1
          /\ (Logout ∉ fst (program fl sv))
          /\ (Destroy ∉ fst (program fl sv))
          /\ (fst (program fl sv) = [Usage]
              \/ exists msg, last (fst (program fl sv)) = Some (Fatal msg)))).
Proof.
  program_cases fl sv; (split; [not_in Hev0 Hpass Hrec|]).
  1: by (right; repeat (split; [done || not_in Hev0 Hpass Hrec|]); left).
  3: by (left; split; [done|]; eexists;
         exact (app_assoc _ [_] [Destroy; Logout])).
  all: right; split; [done|];
    split; [not_in Hev0 Hpass Hrec|]; split; [not_in Hev0 Hpass Hrec|];
    right; eexists; apply last_snoc.
Qed.

(** X16: the output file is created only once the session is open, the
    view created and the hosts retrieved, and only under the path of
    [-output]; a record is handed to the CSV writer only after the file was
    created.  A failed login or enumeration therefore leaves an existing
    file untouched. *)
Theorem output_only_after_inventory (fl : Flag.t) (sv : Services) :
  (forall path,
     CreateFile path ∈ fst (program fl sv) ->
     path = Flag.output fl
     /\ Flag.host fl <> "" /\ Flag.user fl <> ""
     /\ (exists password,
           NewClient sv ("https://" +:+ Flag.host fl +:+ "/sdk")
             (Flag.user fl) password (Flag.insecure fl) = true)
     /\ CreateContainerView sv = true
     /\ is_Some (Retrieve sv))
  /\ (forall record,
        WriteRecord record ∈ fst (program fl sv) ->
        osCreate sv (Flag.output fl) = true).
Proof.
  program_cases fl sv; split.
  all: intros x Hin; in_cases Hin; try absent Hev0 Hpass Hrec Hin.
  all: try done.
  all: injection Hin as ->; repeat split; eauto; intros ?; tauto.
Qed.

Lemma recordsWritten_none evs :
  (forall e, e ∈ evs -> forall r, e <> WriteRecord r) -> recordsWritten evs = [].
Proof.
  intros Hnone. unfold recordsWritten.
  induction evs as [|e evs IH]; [done|]. simpl.
  destruct e; try (apply IH; intros e' He'; apply Hnone; by right).
  exfalso. eapply Hnone; [by left|done].
Qed.

Lemma recordsWritten_records rows : recordsWritten (WriteRecord <$> rows) = rows.
Proof.
  unfold recordsWritten. induction rows as [|r rows IH]; [done|].
  simpl. by f_equal.
Qed.

Lemma recordsWritten_app evs evs' :
  recordsWritten (evs ++ evs') = (recordsWritten evs ++ recordsWritten evs')%list.
Proof. apply omap_app. Qed.

(** Once the command line is accepted, the CSV writer never receives a
    partial table: a run hands it either nothing, or the header followed by
    exactly one record per retrieved host, those of [main]; with exit
    status 0 it is the latter, and the number of hosts is reported on the
    standard error. *)
Lemma program_table (fl : Flag.t) (sv : Services) :
  (recordsWritten (fst (program fl sv)) = []
   \/ exists hosts rows,
        Retrieve sv = Some hosts
        /\ main (RetrieveOneName sv) (RetrieveOneVsan sv) (QueryDisks sv)
             (Flag.anonymize fl) hosts = Some rows
        /\ length rows = length hosts
        /\ recordsWritten (fst (program fl sv)) = header :: rows)
  /\ (snd (program fl sv) = 0 ->
      recordsWritten (fst (program fl sv)) <> []
      /\ exists hosts,
           Retrieve sv = Some hosts
           /\ Stderr ("Wrote " +:+ Itoa (Z.of_nat (length hosts))
                      +:+ " hosts to " +:+ Flag.output fl +:+ newline)
              ∈ fst (program fl sv)).
Proof.
  assert (Hquiet : forall evs : list Event,
             (forall e, e ∈ evs -> e = PromptPassword \/ pass_event e) ->
             recordsWritten evs = []).
  { intros evs Hevs. apply recordsWritten_none. intros e He r ->.
    destruct (Hevs _ He) as [?|?]; done. }
  program_cases fl sv.
  all: assert (H0 : recordsWritten ev0 = [])
         by (apply Hquiet; intros e He; left; by apply Hev0).
  all: try assert (Hp : recordsWritten (pe hosts) = [])
         by (apply Hquiet; intros e He; right; by eapply Hpass).
  all: rewrite ?recordsWritten_app, ?recordsWritten_records, ?H0, ?Hp;
         cbn [recordsWritten omap list_omap app].
  all: split; [first [by left | right; exists hosts, rows; by rewrite ?app_nil_r]
              |intros Hstatus; try discriminate Hstatus].
  split; [done|]. exists hosts. split; [done|].
  rewrite !elem_of_app. right. by left.
Qed.

(** X15: a process never panics and ends in one of four ways: with exit
    status 2 when [flag.Parse] rejects the command line, having printed only
    the message and the usage text; with exit status 0 when [-h] is given,
    having printed only the usage text; with exit status 1 after the usage
    text or a fatal message; or with exit status 0 at the end of [main],
    the deferred [Destroy] and [Logout] being its last actions.  In the
    first three the view is never destroyed and the session never logged
    out. *)
Theorem exit_status_and_session (p : Parsed) (sv : Services) :
  (Panic ∉ fst (execute p sv))
  /\ ((snd (execute p sv) = 2
       /\ exists message,
            p = FlagError message
            /\ fst (execute p sv) = [Stderr message; Usage])
      \/ (snd (execute p sv) = 0
          /\ p = FlagHelp /\ fst (execute p sv) = [Usage])
      \/ (snd (execute p sv) = 1
          /\ (exists fl, p = FlagsOK fl)
          /\ (Logout ∉ fst (execute p sv))
          /\ (Destroy ∉ fst (execute p sv))
          /\ (fst (execute p sv) = [Usage]
              \/ exists msg, last (fst (execute p sv)) = Some (Fatal msg)))
      \/ (snd (execute p sv) = 0
          /\ (exists fl, p = FlagsOK fl)
          /\ exists evs, fst (execute p sv) = (evs ++ [Destroy; Logout])%list)).
Proof.
  destruct p as [fl| |message]; cbn [execute].
  - destruct (program_exit_status fl sv) as [Hpanic [[H0 Hend]|[H1 Hrest]]].
    + split; [done|]. do 3 right. split; [done|]. split; [by eexists|done].
    + split; [done|]. do 2 right. left. split; [done|].
      split; [by eexists|done].
  - split; [|right; left; done].
    cbn [fst]. intros H. apply list_elem_of_singleton in H. discriminate H.
  - split; [|left; split; [done|by eexists]].
    cbn [fst]. intros H. apply elem_of_cons in H as [H|H]; [discriminate H|].
    apply list_elem_of_singleton in H. discriminate H.
Qed.

(** X17: the CSV writer never receives a partial table: a process hands it
    either nothing, or the header followed by exactly one record per
    retrieved host, those of [main].  A process with exit status 0 either
    was asked for the usage text with [-h], and wrote nothing, or is of the
    second kind and reports the number of hosts on the standard error. *)
Theorem table_complete_or_absent (p : Parsed) (sv : Services) :
  (recordsWritten (fst (execute p sv)) = []
   \/ exists fl hosts rows,
        p = FlagsOK fl
        /\ Retrieve sv = Some hosts
        /\ main (RetrieveOneName sv) (RetrieveOneVsan sv) (QueryDisks sv)
             (Flag.anonymize fl) hosts = Some rows
        /\ length rows = length hosts
        /\ recordsWritten (fst (execute p sv)) = header :: rows)
  /\ (snd (execute p sv) = 0 ->
      (p = FlagHelp /\ fst (execute p sv) = [Usage])
      \/ exists fl hosts,
           p = FlagsOK fl
           /\ recordsWritten (fst (execute p sv)) <> []
           /\ Retrieve sv = Some hosts
           /\ Stderr ("Wrote " +:+ Itoa (Z.of_nat (length hosts))
                      +:+ " hosts to " +:+ Flag.output fl +:+ newline)
              ∈ fst (execute p sv)).
Proof.
  destruct p as [fl| |message]; cbn [execute].
  - destruct (program_table fl sv) as [Htable Hzero]. split.
    + destruct Htable as [Hnone|(hosts & rows & Hret & Hmain & Hlen & Hrec)];
        [by left|].
      right. by exists fl, hosts, rows.
    + intros Hstatus. destruct (Hzero Hstatus) as (Hne & hosts & Hret & Hmsg).
      right. by exists fl, hosts.
  - split; [by left|]. intros _. by left.
  - split; [by left|]. intros Hstatus. discriminate Hstatus.
Qed.

(** X18: the password is asked for exactly when host and user are given
    and [-password] is empty, and every connection attempt goes to
    "https://<host>/sdk" with the user and TLS setting of the flags and the
    password of the flag, or the typed one when the flag is empty. *)
Theorem password_prompt_and_connection (fl : Flag.t) (sv : Services) :
  (PromptPassword ∈ fst (program fl sv)
   <-> Flag.host fl <> "" /\ Flag.user fl <> "" /\ Flag.password fl = "")
  /\ (forall rawurl user password insecure,
        Connect rawurl user password insecure ∈ fst (program fl sv) ->
        rawurl = "https://" +:+ Flag.host fl +:+ "/sdk"
        /\ user = Flag.user fl /\ insecure = Flag.insecure fl
        /\ if decide (Flag.password fl = "")
           then ReadPassword sv = Some password
           else password = Flag.password fl).
Proof.
  unfold program.
  pose proof (passEvents_kind sv (Flag.debug fl)) as Hpass.
  pose proof record_events as Hrec.
  destruct (decide (Flag.host fl = "" \/ Flag.user fl = "")) as [Hflag|Hflag].
  { cbn [fst]. split.
    - split; [intros Hin; in_cases Hin; discriminate Hin|tauto].
    - intros ? ? ? ? Hin. in_cases Hin. discriminate Hin. }
  assert (Hprompt : forall evs : list Event,
             PromptPassword
             ∈ ((if bool_decide (Flag.password fl = "") then [PromptPassword]
                 else []) ++ evs)%list
             <-> Flag.password fl = "" \/ PromptPassword ∈ evs).
  { intros evs. rewrite elem_of_app. case_bool_decide as Hpw.
    - split; [by left|]. intros _. left. by left.
    - split; [intros [Hin|Hin]; [by apply elem_of_nil in Hin|by right]|].
      intros [?|?]; [done|by right]. }
  assert (Hconn : forall (evs : list Event) u x y z,
             Connect u x y z
             ∈ ((if bool_decide (Flag.password fl = "") then [PromptPassword]
                 else []) ++ evs)%list
             -> Connect u x y z ∈ evs).
  { intros evs u x y z Hin. apply elem_of_app in Hin as [Hin|Hin]; [|done].
    apply prompt_events in Hin. discriminate Hin. }
  set (pe := passEvents sv (Flag.debug fl)) in *. clearbody pe.
  assert (Hcred : forall password,
             (if bool_decide (Flag.password fl = "") then ReadPassword sv
              else Some (Flag.password fl)) = Some password ->
             if decide (Flag.password fl = "")
             then ReadPassword sv = Some password
             else password = Flag.password fl).
  { intros password. case_bool_decide as Hpw.
    - by rewrite decide_True by done.
    - rewrite decide_False by done. congruence. }
  destruct (if bool_decide (Flag.password fl = "") then ReadPassword sv
            else Some (Flag.password fl)) as [password|];
    [specialize (Hcred password eq_refl)|clear Hcred].
  2:{ cbn [fst]. split.
      - rewrite Hprompt. split; [intros [?|Hin]|tauto].
        + tauto.
        + in_cases Hin. discriminate Hin.
      - intros ? ? ? ? Hin. apply Hconn in Hin. in_cases Hin. discriminate Hin. }
  repeat (match goal with
          | |- context [if ?c then _ else _] => destruct c
          | |- context [match ?c with Some _ => _ | None => _ end] =>
              destruct c
          end; cbn [fst negb]);
    rewrite <- ?app_assoc.
  all: split;
    [rewrite Hprompt; split;
       [intros [?|Hin]; [tauto|in_cases Hin];
        first [discriminate Hin
              | apply Hpass in Hin; done
              | apply Hrec in Hin as [? Hin]; discriminate Hin]
       |tauto]
    |intros ? ? ? ? Hin; apply Hconn in Hin; in_cases Hin;
     first [by injection Hin as -> -> -> ->
           | discriminate Hin
           | apply Hpass in Hin; done
           | apply Hrec in Hin as [? Hin]; discriminate Hin]].
Qed.

Lemma withoutDumps_app evs evs' :
  withoutDumps (evs ++ evs') = (withoutDumps evs ++ withoutDumps evs')%list.
Proof. apply filter_app. Qed.

Lemma withoutDumps_cons e evs :
  withoutDumps (e :: evs)
  = if isDump e then withoutDumps evs else e :: withoutDumps evs.
Proof.
  unfold withoutDumps. rewrite filter_cons.
  destruct (isDump e); by destruct (decide _).
Qed.

Lemma withoutDumps_records (rows : list (list string)) :
  withoutDumps (WriteRecord <$> rows) = WriteRecord <$> rows.
Proof.
  induction rows as [|r rows IH]; [done|].
  rewrite fmap_cons, withoutDumps_cons. simpl. by rewrite IH.
Qed.

Lemma withoutDumps_warnings (ws : list Warning) :
  withoutDumps (Warn <$> ws) = Warn <$> ws.
Proof.
  induction ws as [|w ws IH]; [done|].
  rewrite fmap_cons, withoutDumps_cons. simpl. by rewrite IH.
Qed.

Lemma withoutDumps_host RV QD debug i h :
  withoutDumps (hostVsanEvents RV QD debug i h) = hostVsanEvents RV QD false i h.
Proof.
  unfold hostVsanEvents.
  destruct (VsanSystem (ConfigManager h)) as [vsanRef|]; [|done].
  destruct (RV i vsanRef) as [sys|]; [|done].
  rewrite withoutDumps_app.
  destruct debug, (isESA sys); try done;
    destruct (QD i vsanRef); done.
Qed.

Lemma withoutDumps_concat (f g : nat -> HostSystem -> list Event) hosts :
  (forall i h, withoutDumps (f i h) = g i h) ->
  withoutDumps (concat (imap f hosts)) = concat (imap g hosts).
Proof.
  revert f g. induction hosts as [|h hosts IH]; intros f g Hfg; [done|].
  simpl. rewrite withoutDumps_app, Hfg. f_equal.
  apply IH. intros i h'. apply Hfg.
Qed.

Lemma withoutDumps_pass sv debug hosts :
  withoutDumps (passEvents sv debug hosts) = passEvents sv false hosts.
Proof.
  unfold passEvents. rewrite withoutDumps_app, withoutDumps_warnings.
  f_equal. apply withoutDumps_concat. intros i h. apply withoutDumps_host.
Qed.

(** X19: [-debug] only adds dumps: without them the run does exactly what
    it does with the flag off, records and exit status included. *)
Theorem debug_only_adds_dumps (fl : Flag.t) (sv : Services) :
  withoutDumps (fst (program fl sv)) = fst (program (withoutDebug fl) sv)
  /\ snd (program fl sv) = snd (program (withoutDebug fl) sv).
Proof.
  unfold program.
  cbn [withoutDebug Flag.host Flag.user Flag.password Flag.output
       Flag.insecure Flag.anonymize Flag.debug].
  repeat (match goal with
          | |- context [match ?c with Some _ => _ | None => _ end] =>
              destruct c
          | |- context [if ?c then _ else _] => destruct c
          end; cbn [fst snd negb]).
  all: split; [|done].
  all: repeat (rewrite ?withoutDumps_app, ?withoutDumps_cons,
                 ?withoutDumps_pass, ?withoutDumps_records;
               cbn [isDump]).
  all: done.
Qed.

End Program.

(** ** The further properties on the sample inventory *)

Lemma rows_one_per_host_header_width_witness :
  exists rows,
    main Sample.namesOK Sample.vsanOK Sample.disksOK true Sample.inventory
    = Some rows
    /\ length rows = 4%nat
    /\ forall row, row ∈ rows -> length row = 13%nat.
Proof.
  exact (rows_one_per_host_header_width Sample.namesOK Sample.vsanOK
           Sample.disksOK true Sample.inventory).
Defined.

Lemma hostname_column_witness :
  exists rows row,
    main Sample.namesOK Sample.vsanOK Sample.disksOK true Sample.inventory
    = Some rows
    /\ rows !! 1%nat = Some row
    /\ row !! col_Hostname = Some "Host 2".
Proof.
  destruct (hostname_column Sample.namesOK Sample.vsanOK Sample.disksOK true
              Sample.inventory 1 Sample.esx2 eq_refl)
    as (rows & row & Hmain & Hrow & Hname & _).
  exists rows, row. repeat split; done.
Defined.

Lemma hardware_absent_columns_witness :
  exists rows row,
    main Sample.namesOK Sample.vsanOK Sample.disksOK false Sample.inventory
    = Some rows
    /\ rows !! 2%nat = Some row
    /\ take 5 (drop 4 row) = [""; "0"; "0"; "0"; "0"].
Proof.
  apply (hardware_absent_columns Sample.namesOK Sample.vsanOK Sample.disksOK
           false Sample.inventory 2 Sample.esx3); reflexivity.
Defined.

Lemma hardware_columns_witness :
  exists rows row g,
    main Sample.namesOK Sample.vsanOK Sample.disksOK false Sample.inventory
    = Some rows
    /\ rows !! 0%nat = Some row
    /\ row !! 8%nat = Some (Itoa g)
    /\ g * 2 ^ 30 <= 137438953472 < (g + 1) * 2 ^ 30.
Proof.
  destruct (hardware_columns Sample.namesOK Sample.vsanOK Sample.disksOK false
              Sample.inventory 0 Sample.esx1
              (Sample.hardware 2 32 137438953472) eq_refl eq_refl)
    as (rows & row & g & Hmain & Hrow & _ & _ & _ & Hmem & Hfloor).
  exists rows, row, g. repeat split; try done; apply Hfloor; simpl; lia.
Defined.

Lemma group_name_is_first_success_witness :
  parentNames Sample.namesOK Sample.inventory !! "domain-c8"
  = Some "Prod-domain-c8".
Proof.
  apply (group_name_is_first_success Sample.namesOK Sample.inventory
           "domain-c8").
  exists 0%nat, Sample.esx1, (Sample.ref "ClusterComputeResource" "domain-c8").
  repeat split. intros j' h' p' Hlt. lia.
Defined.

Lemma cluster_column_groups_by_name_witness :
  exists rows ri rj,
    main Sample.namesDown Sample.vsanOK Sample.disksOK true Sample.inventory
    = Some rows
    /\ rows !! 0%nat = Some ri /\ rows !! 1%nat = Some rj
    /\ ri !! col_Cluster = rj !! col_Cluster.
Proof.
  destruct (cluster_column_groups_by_name Sample.namesDown Sample.vsanOK
              Sample.disksOK true Sample.inventory 0 1 Sample.esx1 Sample.esx2
              (Sample.ref "ClusterComputeResource" "domain-c8")
              (Sample.ref "ClusterComputeResource" "domain-c8")
              eq_refl eq_refl eq_refl eq_refl)
    as (rows & ri & rj & Hmain & Hi & Hj & _ & Hsame).
  exists rows, ri, rj. repeat split; try done. by apply Hsame.
Defined.

Lemma config_fetch_failure_degrades_witness :
  exists rows row,
    main Sample.namesOK Sample.vsanOK Sample.disksOK false [Sample.esx1; esx5]
    = Some rows
    /\ rows !! 1%nat = Some row
    /\ storageColumns row = [""; "0"; "0"; "0.0"].
Proof.
  destruct (config_fetch_failure_degrades Sample.namesOK Sample.vsanOK
              Sample.disksOK false [Sample.esx1; esx5] 1 esx5 eq_refl)
    as [_ Hrows].
  { exists (Sample.ref "HostVsanSystem" "vsan-9"). by split. }
  apply Hrows.
  intros [|[|j]] hj Hj Hn; try discriminate; injection Hj as <-.
  - vm_compute in Hn. discriminate.
  - reflexivity.
Defined.

Lemma storage_columns_well_tagged_witness :
  exists rows row,
    main Sample.namesOK Sample.vsanOK Sample.disksOK false Sample.inventory
    = Some rows
    /\ rows !! 0%nat = Some row.
Proof.
  destruct (storage_columns_well_tagged Sample.namesOK Sample.vsanOK
              Sample.disksOK false Sample.inventory 0 Sample.esx1 eq_refl)
    as (rows & row & Hmain & Hrow & _).
  by exists rows, row.
Defined.

Lemma disk_order_irrelevant_witness :
  foldl osaGroup (0, 0) [Sample.group4; {| Ssd := Sample.disk 512 1 true;
                                            NonSsd := [] |}]
  = foldl osaGroup (0, 0) [{| Ssd := Sample.disk 512 1 true; NonSsd := [] |};
                           Sample.group4].
Proof.
  apply disk_order_irrelevant. apply Permutation_swap.
Defined.

Lemma capacity_rendering_monotone_witness :
  Float64.tenths (toTiB 962072674304) <= Float64.tenths (toTiB 4000000000000).
Proof.
  apply (capacity_rendering_monotone 962072674304 4000000000000); simpl; lia.
Defined.

Lemma capacity_rendered_zero_witness :
  Float64.Sprintf_1f (toTiB 54975581388) = "0.0".
Proof.
  apply (capacity_rendered_zero 54975581388); simpl; lia.
Defined.

Lemma one_warning_per_failed_lookup_witness :
  length (resolveLogged Sample.namesDown Sample.inventory).2
  = length (filter failed (calls (resolve Sample.namesDown Sample.inventory))).
Proof.
  apply (one_warning_per_failed_lookup Sample.namesDown Sample.inventory).
Defined.

Lemma output_only_after_inventory_witness :
  osCreate sampleServices (Flag.output sampleFlags) = true.
Proof.
  apply (output_only_after_inventory sampleFlags sampleServices) with header.
  vm_compute. do 5 right. left.
Defined.

Lemma table_complete_or_absent_witness :
  recordsWritten (fst (execute (FlagsOK sampleFlags) sampleServices)) <> []
  /\ fst (execute FlagHelp sampleServices) = [Usage].
Proof.
  split.
  - destruct (table_complete_or_absent (FlagsOK sampleFlags) sampleServices)
      as [_ Hzero].
    destruct (Hzero eq_refl) as [[Hp _]|(fl & hosts & _ & Hne & _)];
      [discriminate Hp|exact Hne].
  - destruct (table_complete_or_absent FlagHelp sampleServices) as [_ Hzero].
    destruct (Hzero eq_refl) as [[_ Hu]|(fl & hosts & Hp & _)];
      [exact Hu|discriminate Hp].
Defined.

Lemma password_prompt_and_connection_witness :
  PromptPassword ∈ fst (program sampleFlags sampleServices).
Proof.
  apply (password_prompt_and_connection sampleFlags sampleServices).
  repeat split; discriminate.
Defined.

(** ** Warnings of the third pass *)
Section VsanWarnings.
Variable RetrieveVsan : nat -> ManagedObjectReference -> option HostVsanSystem.
Variable QueryDisksForVsan :
  nat -> ManagedObjectReference -> option (list VsanHostDiskResult).

(** X20: without [-debug] an iteration of the third pass logs at most one
    warning, and the warnings tell the degraded hosts apart: a host with a
    storage subsystem that stores no facts was either reported with a
    configuration warning or has a disk-group configuration without disk
    group, which is skipped silently; a host reported with a disk warning
    stores the ESA facts with zero disks and zero capacity. *)
Theorem vsan_warnings_explain_degradation (i : nat) (h : HostSystem) :
  let evs := hostVsanEvents RetrieveVsan QueryDisksForVsan false i h in
  (length evs <= 1)%nat
  /\ (VsanSystem (ConfigManager h) <> None ->
      hostVsanInfo RetrieveVsan QueryDisksForVsan i h = None ->
      (evs = [Warn (NoVsanConfig (hostName h))]
       /\ config_fetch_fails RetrieveVsan i h)
      \/ (evs = [] /\ osa_without_groups RetrieveVsan i h))
  /\ (Warn (NoVsanDisks (hostName h)) ∈ evs ->
      hostVsanInfo RetrieveVsan QueryDisksForVsan i h
      = Some {| capacityTiB := toTiB 0; totalDisks := 0; cacheDisks := 0;
                clusterType := "ESA" |}).
Proof.
  unfold hostVsanEvents, hostVsanInfo, config_fetch_fails, osa_without_groups.
  destruct (VsanSystem (ConfigManager h)) as [vsanRef|]; cbn zeta.
  2:{ split; [simpl; lia|]. split; [done|].
      intros Hin. by apply elem_of_nil in Hin. }
  destruct (RetrieveVsan i vsanRef) as [vsanSys|] eqn:Hsys.
  2:{ split; [simpl; lia|]. split.
      - intros _ _. left. split; [done|]. by exists vsanRef.
      - intros Hin. apply list_elem_of_singleton in Hin. discriminate Hin. }
  destruct (isESA vsanSys) eqn:Hesa.
  - destruct (QueryDisksForVsan i vsanRef) as [res|]; simpl.
    + split; [lia|]. split; [done|]. intros Hin. by apply elem_of_nil in Hin.
    + split; [lia|]. split; [done|]. done.
  - simpl. split; [lia|]. split.
    + intros _ Hnone. right. split; [done|].
      exists vsanRef, vsanSys. repeat split; try done.
      destruct (StorageInfo (Config vsanSys)) as [si|]; [|by left].
      right. exists si. split; [done|].
      destruct (DiskMapping si); [done|discriminate Hnone].
    + intros Hin. by apply elem_of_nil in Hin.
Qed.

End VsanWarnings.

Lemma vsan_warnings_explain_degradation_witness :
  hostVsanEvents Sample.vsanOK Sample.disksOK false 1 esx5
  = [Warn (NoVsanConfig (hostName esx5))]
  /\ config_fetch_fails Sample.vsanOK 1 esx5
  \/ hostVsanEvents Sample.vsanOK Sample.disksOK false 1 esx5 = []
     /\ osa_without_groups Sample.vsanOK 1 esx5.
Proof.
  apply (vsan_warnings_explain_degradation Sample.vsanOK Sample.disksOK 1 esx5);
    [discriminate|reflexivity].
Defined.

(** ** The build script *)
Module BuildFacts.
Import Build.

Example targets :
  target <$> platforms
  = [("darwin", "arm64", "dist/vmware-inventory-mac-arm64");
     ("linux", "amd64", "dist/vmware-inventory-linux-amd64");
     ("windows", "amd64", "dist/vmware-inventory-windows-amd64.exe")].
Proof. reflexivity. Qed.

Lemma dropFromFirstSlash_app a r :
  noSlash a = true -> dropFromFirstSlash (a +:+ "/" +:+ r) = a.
Proof.
  induction a as [|c a IH]; simpl; [done|].
  intros [Hc Ha]%andb_prop. apply negb_true_iff in Hc. rewrite Hc.
  by rewrite IH.
Qed.

Lemma afterFirstSlash_app a r :
  noSlash a = true -> afterFirstSlash (a +:+ "/" +:+ r) = Some r.
Proof.
  induction a as [|c a IH]; simpl; [done|].
  intros [Hc Ha]%andb_prop. apply negb_true_iff in Hc. rewrite Hc.
  by apply IH.
Qed.

Lemma afterLastSlash_none l : noSlash l = true -> afterLastSlash l = None.
Proof.
  induction l as [|c l IH]; simpl; [done|].
  intros [Hc Hl]%andb_prop. apply negb_true_iff in Hc.
  by rewrite IH, Hc.
Qed.

Lemma afterLastSlash_app a l :
  noSlash l = true -> afterLastSlash (a +:+ "/" +:+ l) = Some l.
Proof.
  intros Hl. induction a as [|c a IH]; simpl.
  - by rewrite afterLastSlash_none.
  - by rewrite IH.
Qed.

Lemma beforeLastSlash_none l : noSlash l = true -> beforeLastSlash l = None.
Proof.
  induction l as [|c l IH]; simpl; [done|].
  intros [Hc Hl]%andb_prop. apply negb_true_iff in Hc.
  by rewrite IH, Hc.
Qed.

Lemma beforeLastSlash_app a l :
  noSlash l = true -> beforeLastSlash (a +:+ "/" +:+ l) = Some a.
Proof.
  intros Hl. induction a as [|c a IH]; simpl.
  - by rewrite beforeLastSlash_none.
  - by rewrite IH.
Qed.

Lemma append_assoc (a b c : string) : (a +:+ b) +:+ c = a +:+ (b +:+ c).
Proof.
  induction a as [|x a IH]; [done|].
  change (String x ((a +:+ b) +:+ c) = String x (a +:+ (b +:+ c))).
  by rewrite IH.
Qed.

Lemma append_nil_r (a : string) : a +:+ "" = a.
Proof.
  induction a as [|x a IH]; [done|].
  change (String x (a +:+ "") = String x a). by rewrite IH.
Qed.

(** X21: for an entry "os/arch/label" whose three parts contain no slash,
    the loop builds for GOOS = os and GOARCH = arch and writes the binary to
    "dist/vmware-inventory-<label>-<arch>", with ".exe" appended exactly
    when os is "windows". *)
Theorem target_of_platform (os arch label : string) :
  noSlash os = true -> noSlash arch = true -> noSlash label = true ->
  target (os +:+ "/" +:+ arch +:+ "/" +:+ label)
  = (os, arch,
     "dist/vmware-inventory-" +:+ label +:+ "-" +:+ arch
     +:+ (if decide (os = "windows") then ".exe" else "")).
Proof.
  intros Hos Harch Hlabel. unfold target.
  rewrite (dropFromFirstSlash_app os) by done.
  unfold dropToFirstSlash, dropFromLastSlash, dropToLastSlash.
  rewrite (afterFirstSlash_app os) by done. simpl default.
  rewrite (beforeLastSlash_app arch label) by done. simpl default.
  assert (Hlast : afterLastSlash (os +:+ "/" +:+ arch +:+ "/" +:+ label)
                  = Some label).
  { rewrite <- (append_assoc os "/" (arch +:+ "/" +:+ label)).
    rewrite <- (append_assoc (os +:+ "/") arch ("/" +:+ label)).
    by apply afterLastSlash_app. }
  rewrite Hlast. simpl default.
  f_equal. unfold OUTPUT_DIR, MODULE.
  destruct (decide (os = "windows")); simpl.
  - by rewrite !append_assoc.
  - by rewrite append_nil_r.
Qed.

End BuildFacts.

Lemma target_of_platform_witness :
  Build.target ("freebsd" +:+ "/" +:+ "riscv64" +:+ "/" +:+ "bsd")
  = ("freebsd", "riscv64", "dist/vmware-inventory-bsd-riscv64").
Proof.
  apply (BuildFacts.target_of_platform "freebsd" "riscv64" "bsd"); reflexivity.
Defined.

(** ** What anonymisation changes *)
Section AnonymizedColumns.
Variable RetrieveName : nat -> ManagedObjectReference -> option string.
Variable RetrieveVsan : nat -> ManagedObjectReference -> option HostVsanSystem.
Variable QueryDisksForVsan :
  nat -> ManagedObjectReference -> option (list VsanHostDiskResult).

Lemma writeRow_tail a a' pn ac ac' vi i h :
  exists x y x' y' tl,
    writeRow a pn ac vi i h = Some (x :: y :: tl)
    /\ writeRow a' pn ac' vi i h = Some (x' :: y' :: tl).
Proof.
  unfold writeRow. rewrite cpuFields_eq.
  destruct (Hardware h); simpl; do 5 eexists; split; reflexivity.
Qed.

Lemma writeRows_tail a a' pn ac ac' vi hosts : forall i rows rows',
  writeRows a pn ac vi i hosts = Some rows ->
  writeRows a' pn ac' vi i hosts = Some rows' ->
  drop 2 <$> rows = drop 2 <$> rows'.
Proof.
  induction hosts as [|h hosts IH]; intros i rows rows'; simpl.
  - by intros [= <-] [= <-].
  - destruct (writeRow_tail a a' pn ac ac' vi i h)
      as (x & y & x' & y' & tl & -> & ->). simpl.
    destruct (writeRows a pn ac vi (S i) hosts) as [rs|] eqn:Hrs; [|done].
    destruct (writeRows a' pn ac' vi (S i) hosts) as [rs'|] eqn:Hrs'; [|done].
    simpl. intros [= <-] [= <-]. rewrite !fmap_cons. f_equal.
    by apply (IH (S i)).
Qed.

(** X22: anonymisation changes the Hostname and Cluster columns and
    nothing else: from the third column on, the records of an anonymised
    run are those of the plain run on the same answers. *)
Theorem anonymize_changes_two_columns (hosts : list HostSystem) :
  exists rows rows',
    main RetrieveName RetrieveVsan QueryDisksForVsan true hosts = Some rows
    /\ main RetrieveName RetrieveVsan QueryDisksForVsan false hosts = Some rows'
    /\ drop 2 <$> rows = drop 2 <$> rows'.
Proof.
  destruct (main_rows RetrieveName RetrieveVsan QueryDisksForVsan true hosts)
    as (rows & Hmain & _).
  destruct (main_rows RetrieveName RetrieveVsan QueryDisksForVsan false hosts)
    as (rows' & Hmain' & _).
  exists rows, rows'. split; [done|]. split; [done|].
  unfold main in Hmain, Hmain'. by eapply writeRows_tail.
Qed.

End AnonymizedColumns.
